(** * DreamLayer backend: run registry and report bundles

  A shallow embedding of the report pipeline of the DreamLayer backend
  ([run_registry.py], [report_generator.py], [report_bundle.py]) and the
  properties its specification states about it.

  Part I holds the embedding, one module per source file; Part II holds
  the statements and their proofs.

  What stands for the world outside the code:
  - a CSV file is kept as the rows [csv.reader] yields for it (a list of
    lists of cells); quoting and line endings are the [csv] module's;
  - a directory tree is a finite map from the path string the code joins
    to the content stored there, path strings being taken in normal form
    (no empty, [.] or [..] component), so that
    [os.path.relpath (os.path.join d p) d = p];
  - a ZIP archive is the finite map from entry name to content;
  - an operation that raises does so before it changes anything, and which
    operations raise is read from the world ([faults]). *)

From Stdlib Require Import String Ascii ZArith List Bool Lia Sorted.
From stdpp Require Import base gmap sets list strings pretty.

Local Open Scope string_scope.
Local Open Scope Z_scope.

(* ===================================================================== *)
(** * Part I: the embedding *)
(* ===================================================================== *)

(** ** Python values and idioms shared by the three files *)
Module Py.

(** An exception; [str e] is its message. *)
Inductive exn : Type :=
| ValueError (msg : string)
| OSError (msg : string)
| TypeError (msg : string).

Definition str_exn (e : exn) : string :=
  match e with ValueError m | OSError m | TypeError m => m end.

(** What running a piece of code gives: a value or a raised exception. *)
Inductive outcome (A : Type) : Type :=
| Returns (a : A)
| Raises (e : exn).
Arguments Returns {A} a.
Arguments Raises {A} e.

(** A float. Nothing here computes with one: it is known by the text
    [str] prints for it. *)
Record pyfloat : Type := PyFloat { float_str : string }.

(** A JSON value of no fixed shape (a LoRA list, a workflow graph), seen
    through the two things the code does with it: testing its truth value
    and handing it to [json.dumps]. *)
Record blob : Type := Blob { truthy : bool; dumps : string }.

(** A [dict] with string keys: insertion ordered, keys unique. *)
Definition dict (V : Type) : Type := list (string * V).

Fixpoint dict_get {V} (d : dict V) (k : string) : option V :=
  match d with
  | [] => None
  | (k', v) :: d' => if String.eqb k k' then Some v else dict_get d' k
  end.

Definition dict_in {V} (d : dict V) (k : string) : bool :=
  match dict_get d k with Some _ => true | None => false end.

(** [d[k] = v]: an existing key keeps its place. *)
Fixpoint dict_set {V} (d : dict V) (k : string) (v : V) : dict V :=
  match d with
  | [] => [(k, v)]
  | (k', v') :: d' =>
      if String.eqb k k' then (k, v) :: d' else (k', v') :: dict_set d' k v
  end.

(** [del d[k]] for a key that is present. *)
Fixpoint dict_del {V} (d : dict V) (k : string) : dict V :=
  match d with
  | [] => []
  | (k', v') :: d' =>
      if String.eqb k k' then d' else (k', v') :: dict_del d' k
  end.

Definition dict_values {V} (d : dict V) : list V := map snd d.

(** [sorted (xs, key=key, reverse=True)] for string keys: stable, so equal
    keys keep the order they came in. *)
Fixpoint insert_desc {A} (key : A -> string) (x : A) (l : list A) : list A :=
  match l with
  | [] => [x]
  | y :: l' =>
      if String.ltb (key x) (key y) then y :: insert_desc key x l'
      else x :: l
  end.

Definition sorted_desc {A} (key : A -> string) (xs : list A) : list A :=
  foldr (insert_desc key) [] xs.

(** [str.lower], on ASCII letters. *)
Definition lower_ascii (c : ascii) : ascii :=
  let n := nat_of_ascii c in
  if (Nat.leb 65 n && Nat.leb n 90)%bool then ascii_of_nat (n + 32) else c.

Fixpoint lower (s : string) : string :=
  match s with
  | EmptyString => EmptyString
  | String c s' => String (lower_ascii c) (lower s')
  end.

(** [k in s] for strings. *)
Fixpoint contains (s k : string) : bool :=
  String.prefix k s ||
  match s with
  | EmptyString => false
  | String _ s' => contains s' k
  end.

(** [s.endswith (suffixes)] with a tuple of suffixes. *)
Fixpoint endswith1 (s k : string) : bool :=
  String.eqb s k ||
  match s with
  | EmptyString => false
  | String _ s' => endswith1 s' k
  end.

Definition endswith (s : string) (suffixes : list string) : bool :=
  existsb (endswith1 s) suffixes.

(** [s.split ('/')[-1]]: what follows the last slash. *)
Fixpoint after_last_slash (s : string) : string :=
  match s with
  | EmptyString => EmptyString
  | String c s' =>
      if contains s' "/" then after_last_slash s'
      else if Ascii.eqb c "/" then s' else s
  end.

End Py.

(** ** [run_registry.py] *)
Module run_registry.
Import Py.

Record RunConfig : Type := {
  run_id : string;
  timestamp : string;
  model : string;
  vae : option string;
  loras : list blob;
  controlnets : list blob;
  prompt : string;
  negative_prompt : string;
  seed : Z;
  sampler : string;
  steps : Z;
  cfg_scale : pyfloat;
  width : Z;
  height : Z;
  batch_size : Z;
  batch_count : Z;
  workflow : blob;
  version : string;
  generated_images : list string;
  generation_type : string
}.

(** The registry object. *)
Record RunRegistry : Type := {
  storage_file : string;
  runs : dict RunConfig
}.

(** The disk as the registry sees it: JSON files holding an object of run
    configurations, and the paths that cannot be opened for writing. *)
Record Disk : Type := {
  contents : gmap string (dict RunConfig);
  unwritable : gset string
}.

(** [save_runs]: rewrite the storage file in full; an error is printed
    and swallowed. *)
Definition save_runs (self : RunRegistry) (fs : Disk) : Disk :=
  let data := runs self in
  if bool_decide (storage_file self ∈ unwritable fs) then fs
  else {| contents := <[storage_file self := data]> (contents fs);
          unwritable := unwritable fs |}.

Definition add_run (self : RunRegistry) (config : RunConfig) (fs : Disk)
  : RunRegistry * Disk :=
  let self' := {| storage_file := storage_file self;
                  runs := dict_set (runs self) (run_id config) config |} in
  (self', save_runs self' fs).

Definition get_run (self : RunRegistry) (id : string) : option RunConfig :=
  dict_get (runs self) id.

Definition get_all_runs (self : RunRegistry) : list RunConfig :=
  sorted_desc timestamp (dict_values (runs self)).

Definition delete_run (self : RunRegistry) (id : string) (fs : Disk)
  : bool * RunRegistry * Disk :=
  if dict_in (runs self) id then
    let self' := {| storage_file := storage_file self;
                    runs := dict_del (runs self) id |} in
    (true, self', save_runs self' fs)
  else (false, self, fs).

(** [load_runs]: when the storage file is there, enter each of its runs
    under its key, in file order. (The disk holds well-formed files only; a
    file that does not parse leaves the runs as they are.) *)
Definition load_runs (self : RunRegistry) (fs : Disk) : RunRegistry :=
  match contents fs !! storage_file self with
  | Some data =>
      {| storage_file := storage_file self;
         runs := fold_left (fun d item => dict_set d (fst item) (snd item))
                           data (runs self) |}
  | None => self
  end.

(** [RunRegistry (storage_file)]: an empty mapping, then [load_runs]. *)
Definition new_registry (storage_file : string) (fs : Disk) : RunRegistry :=
  load_runs {| storage_file := storage_file; runs := [] |} fs.

End run_registry.

(** ** State, environment and exceptions *)
Module Run.
Import Py.

Section monad.
Context {E S : Type}.

(** A piece of code run in a read-only environment [E] on a store [S]. *)
Definition M (A : Type) : Type := E -> S -> outcome A * S.

Definition ret {A} (a : A) : M A := fun _ s => (Returns a, s).

Definition bind {A B} (m : M A) (k : A -> M B) : M B :=
  fun env s =>
    match m env s with
    | (Returns a, s') => k a env s'
    | (Raises e, s') => (Raises e, s')
    end.

Definition raise {A} (e : exn) : M A := fun _ s => (Raises e, s).

Definition ask : M E := fun env s => (Returns env, s).
Definition get : M S := fun _ s => (Returns s, s).
Definition put (s : S) : M unit := fun _ _ => (Returns tt, s).

(** [try: body except Exception as e: handler e] *)
Definition try_except {A} (body : M A) (handler : exn -> M A) : M A :=
  fun env s =>
    match body env s with
    | (Returns a, s') => (Returns a, s')
    | (Raises e, s') => handler e env s'
    end.

(** [try: body finally: final] *)
Definition try_finally {A} (body : M A) (final : M unit) : M A :=
  fun env s =>
    let '(r, s') := body env s in
    match final env s' with
    | (Returns _, s'') => (r, s'')
    | (Raises e, s'') => (Raises e, s'')
    end.

(** An operation that may fail: raise what the world says it raises. *)
Definition may_raise (fault : option exn) : M unit :=
  match fault with
  | Some e => raise e
  | None => ret tt
  end.

(** [for x in xs: acc = body x acc] *)
Fixpoint for_each {A B} (xs : list A) (body : A -> B -> M B) (acc : B) : M B :=
  match xs with
  | [] => ret acc
  | x :: xs' => bind (body x acc) (for_each xs' body)
  end.

End monad.

Arguments M : clear implicits.

End Run.

Notation "'let!' x ':=' m 'in' k" := (Run.bind m (fun x => k))
  (at level 10, x name, m at level 100, k at level 200, only parsing).
Notation "'do!' m 'in' k" := (Run.bind m (fun _ => k))
  (at level 10, m at level 100, k at level 200, only parsing).

(** ** The [csv] module, at the level of rows *)
Module csv.
Import Py.

(** A CSV file: the rows the reader yields, a blank line giving [[]]. *)
Definition file : Type := list (list string).

(** [DictReader.fieldnames or []]: the first row, if there is one. *)
Definition fieldnames (f : file) : list string :=
  match f with
  | [] => []
  | header :: _ => header
  end.

Definition is_blank (row : list string) : bool :=
  match row with [] => true | _ => false end.

(** One row as the reader's dictionary: [dict (zip (fieldnames, row))], the
    columns the row is too short for set to [None]. (Cells beyond the
    header go under the key [None], which nothing here looks up.) *)
Definition row_dict (names row : list string) : dict (option string) :=
  let d := fold_left (fun d kv => dict_set d (fst kv) (Some (snd kv)))
                     (zip names row) [] in
  fold_left (fun d k => dict_set d k None) (drop (length row) names) d.

(** Iterating a [DictReader]: the rows after the header, blank ones
    skipped. *)
Definition DictReader (f : file) : list (dict (option string)) :=
  map (row_dict (fieldnames f)) (filter (fun r => negb (is_blank r)) (tail f)).

(** [row.get (k, default)] *)
Definition row_get (row : dict (option string)) (k default : string)
  : option string :=
  match dict_get row k with
  | Some v => v
  | None => Some default
  end.

(** A value handed to the writer and the cell it becomes. *)
Inductive value : Type :=
| VNone
| VStr (s : string)
| VInt (z : Z)
| VFloat (f : pyfloat).

Definition cell (v : value) : string :=
  match v with
  | VNone => ""
  | VStr s => s
  | VInt z => pretty z
  | VFloat f => float_str f
  end.

(** [DictWriter.writerow]: the cells in the order of [names], a missing key
    giving the empty cell. *)
Definition writerow (names : list string) (rowdict : dict value)
  : list string :=
  map (fun k => match dict_get rowdict k with
                | Some v => cell v
                | None => ""
                end) names.

End csv.

(** ** [report_generator.py] *)
Module report_generator.
Import Py.

(** *** [ImageRecord] *)
Module ImageRecord.

Record t : Type := {
  id : string;
  filename : string;
  relative_path : string;
  prompt : string;
  negative_prompt : string;
  model_name : string;
  sampler_name : string;
  steps : Z;
  cfg_scale : pyfloat;
  width : Z;
  height : Z;
  seed : Z;
  timestamp : string;
  generation_type : string;
  batch_index : nat;
  denoising_strength : option pyfloat;
  input_image_path : option string;
  lora_models : option string;
  controlnet_info : option string;
  file_size_bytes : option Z
}.

Definition get_required_columns : list string :=
  [ "id"; "filename"; "relative_path"; "prompt"; "negative_prompt";
    "model_name"; "sampler_name"; "steps"; "cfg_scale"; "width";
    "height"; "seed"; "timestamp"; "generation_type"; "batch_index" ].

(** What [validate_csv_schema] returns: the full report, or the report of an
    exception. *)
Inductive validation : Type :=
| Checked (valid : bool)
          (required_columns actual_columns : list string)
          (missing_columns extra_columns : list string)
          (row_count : nat)
| Failed (error : string) (required_columns : list string).

Definition valid (v : validation) : bool :=
  match v with
  | Checked b _ _ _ _ _ => b
  | Failed _ _ => false
  end.

Definition missing_columns (v : validation) : option (list string) :=
  match v with
  | Checked _ _ _ m _ _ => Some m
  | Failed _ _ => None
  end.

Definition extra_columns (v : validation) : option (list string) :=
  match v with
  | Checked _ _ _ _ x _ => Some x
  | Failed _ _ => None
  end.

Definition row_count (v : validation) : option nat :=
  match v with
  | Checked _ _ _ _ _ n => Some n
  | Failed _ _ => None
  end.

(** [validate_csv_schema (csv_path)]. [opened] is what opening and reading
    [csv_path] gives: its rows, or the exception raised on the way. The two
    column sets are Python sets; their listing order is that of
    [elements]. *)
Definition validate_csv_schema (opened : outcome csv.file) : validation :=
  let required_cols := get_required_columns in
  match opened with
  | Returns f =>
      let actual_cols := csv.fieldnames f in
      let missing_cols : gset string :=
        list_to_set required_cols ∖ list_to_set actual_cols in
      let extra_cols : gset string :=
        list_to_set actual_cols ∖ list_to_set required_cols in
      Checked (Nat.eqb (size missing_cols) 0)
              required_cols actual_cols
              (elements missing_cols) (elements extra_cols)
              (length (csv.DictReader f))
  | Raises e => Failed (str_exn e) required_cols
  end.

(** [dataclasses.asdict]: the twenty fields in declaration order. *)
Definition asdict (r : t) : dict csv.value :=
  let opt {A} (inj : A -> csv.value) (o : option A) :=
    match o with Some a => inj a | None => csv.VNone end in
  [ ("id", csv.VStr (id r));
    ("filename", csv.VStr (filename r));
    ("relative_path", csv.VStr (relative_path r));
    ("prompt", csv.VStr (prompt r));
    ("negative_prompt", csv.VStr (negative_prompt r));
    ("model_name", csv.VStr (model_name r));
    ("sampler_name", csv.VStr (sampler_name r));
    ("steps", csv.VInt (steps r));
    ("cfg_scale", csv.VFloat (cfg_scale r));
    ("width", csv.VInt (width r));
    ("height", csv.VInt (height r));
    ("seed", csv.VInt (seed r));
    ("timestamp", csv.VStr (timestamp r));
    ("generation_type", csv.VStr (generation_type r));
    ("batch_index", csv.VInt (Z.of_nat (batch_index r)));
    ("denoising_strength", opt csv.VFloat (denoising_strength r));
    ("input_image_path", opt csv.VStr (input_image_path r));
    ("lora_models", opt csv.VStr (lora_models r));
    ("controlnet_info", opt csv.VStr (controlnet_info r));
    ("file_size_bytes", opt csv.VInt (file_size_bytes r)) ].

End ImageRecord.

(** *** Gallery data *)

(** The [settings] object of a gallery image; a key may be absent. *)
Module Settings.
Record t : Type := {
  model_name : option string;
  sampler_name : option string;
  steps : option Z;
  cfg_scale : option pyfloat;
  width : option Z;
  height : option Z;
  seed : option Z;
  denoising_strength : option pyfloat;
  input_image : option blob;
  lora : option blob;
  controlnet : option blob
}.

(** [{}] *)
Definition empty : t :=
  {| model_name := None; sampler_name := None; steps := None;
     cfg_scale := None; width := None; height := None; seed := None;
     denoising_strength := None; input_image := None; lora := None;
     controlnet := None |}.
End Settings.

(** One image-metadata object of the gallery; a key may be absent. *)
Module Image.
Record t : Type := {
  id : option string;
  filename : option string;
  url : option string;
  prompt : option string;
  negativePrompt : option string;
  timestamp : option string;
  file_size : option Z;
  settings : option Settings.t
}.
End Image.

Definition gallery_data : Type := dict (list Image.t).

(** What is at [temp_gallery_data.json]: nothing, a file that cannot be
    read or parsed, a JSON value that is not an object, or an object. The
    values of the object are taken at the types [create_csv_records] reads
    them at; one of another type makes that function raise, which the world
    records as a fault at [CreateRecords]. *)
Inductive gallery_file : Type :=
| NoFile
| Malformed
| NotADict
| Object (data : gallery_data).

(** An entry of the served-images directory, as [os.stat] shows it;
    [st_mtime] is the whole seconds, [mtime_iso] its ISO text. *)
Record DirEntry : Type := {
  is_file : bool;
  st_size : Z;
  st_mtime : Z;
  mtime_iso : string
}.

(** *** Files the generator writes *)

Record config : Type := {
  generated_at : string;
  dreamlayer_version : string;
  report_format_version : string;
  system_settings : blob;
  checkpoints : blob;
  output_directory : string;
  served_images_directory : string;
  reports_directory : string
}.

Inductive content : Type :=
| CsvFile (rows : csv.file)
| ConfigJson (c : config)
| ReadmeMd (generated_on : string) (total_images : nat)
           (generation_types : list string)
| ImageFile (stat : DirEntry).

(** A directory tree, and a ZIP archive: path to content. *)
Abbreviation tree := (gmap string content).

(** *** The world of one call *)

(** The places of [create_report_bundle] where something outside the code
    may raise: making the staging directory, converting the gallery data,
    writing and reading back [results.csv], writing [config.json], making
    the [grids] directories, copying one source file, writing [README.md],
    writing and reopening the archive, reading [results.csv] for the path
    check, and removing the staging directory. *)
Inductive site : Type :=
| MakeStaging
| CreateRecords
| WriteCsv
| ReadCsv
| WriteConfig
| MakeGrids
| Copy (filename : string)
| WriteReadme
| WriteZip
| ReadZip
| ReadCsvPaths
| Cleanup.

(** The world a call reads: the gallery snapshot, the served-images
    directory in [os.listdir] order ([None] when it does not exist), the
    clock in the three formats used, what [get_settings] and the model
    listing give ([None] for a failed or refused request), the paths of the
    three directories, the size on disk of an archive, and the faults. *)
Record Env : Type := {
  gallery : gallery_file;
  served_images : option (list (string * DirEntry));
  now_iso : string;
  now_stamp : string;
  now_text : string;
  get_settings : outcome blob;
  models_response : option blob;
  output_dir : string;
  served_images_dir : string;
  reports_path : string;
  getsize : tree -> Z;
  faults : site -> option exn
}.

(** What a call changes: the staging directory ([None] when it does not
    exist) and the archives of the reports directory, by file name. *)
Record Store : Type := {
  temp_dir : option tree;
  reports_dir : gmap string tree
}.

Abbreviation M := (Run.M Env Store).

(** *** Data source: [fetch_gallery_data] and [_scan_served_images] *)

Definition image_record (filename : string) (stat : DirEntry) : Image.t :=
  {| Image.id := Some ("scanned_" +:+ filename +:+ "_" +:+ pretty (st_mtime stat));
     Image.filename := Some filename;
     Image.url := Some ("http://localhost:5001/api/images/" +:+ filename);
     Image.prompt := Some "Generated image";
     Image.negativePrompt := Some "";
     Image.timestamp := Some (mtime_iso stat);
     Image.file_size := Some (st_size stat);
     Image.settings := Some
       {| Settings.model_name := Some "unknown";
          Settings.sampler_name := Some "unknown";
          Settings.steps := Some 20;
          Settings.cfg_scale := Some (PyFloat "7.0");
          Settings.width := Some 512;
          Settings.height := Some 512;
          Settings.seed := Some (-1);
          Settings.denoising_strength := None;
          Settings.input_image := None;
          Settings.lora := None;
          Settings.controlnet := None |} |}.

(** [any (keyword in name for keyword in keywords)] *)
Definition any_keyword (name : string) (keywords : list string) : bool :=
  existsb (contains name) keywords.

(** One turn of the loop over [os.listdir]; the three lists are
    [txt2img_images], [img2img_images] and [extras_images]. *)
Definition scan_entry
    (acc : list Image.t * list Image.t * list Image.t)
    (entry : string * DirEntry)
  : list Image.t * list Image.t * list Image.t :=
  let '(txt2img_images, img2img_images, extras_images) := acc in
  let '(filename, stat) := entry in
  if negb (endswith (lower filename) [".png"; ".jpg"; ".jpeg"; ".webp"])
  then acc
  else if negb (is_file stat) then acc
  else
    let image_record := image_record filename stat in
    if any_keyword (lower filename) ["img2img"; "controlnet"] then
      (txt2img_images, (img2img_images ++ [image_record])%list, extras_images)
    else if any_keyword (lower filename) ["upscaled"; "extras"; "enhanced"] then
      (txt2img_images, img2img_images, (extras_images ++ [image_record])%list)
    else
      ((txt2img_images ++ [image_record])%list, img2img_images, extras_images).

Definition _scan_served_images (self : Env) : gallery_data :=
  match served_images self with
  | None => [("txt2img", []); ("img2img", []); ("extras", [])]
  | Some listing =>
      let '(txt2img_images, img2img_images, extras_images) :=
        fold_left scan_entry listing ([], [], []) in
      [("txt2img", txt2img_images); ("img2img", img2img_images);
       ("extras", extras_images)]
  end.

(** The snapshot is used when it is an object with one of the three keys;
    a file that cannot be read or parsed is passed over. *)
Definition fetch_gallery_data (self : Env) : gallery_data :=
  match gallery self with
  | Object data =>
      if dict_in data "txt2img" || dict_in data "img2img"
         || dict_in data "extras"
      then data
      else _scan_served_images self
  | NoFile | Malformed | NotADict => _scan_served_images self
  end.

(** *** [create_csv_records] *)

Definition truthy_dumps (o : option blob) : option string :=
  match o with
  | Some b => if truthy b then Some (dumps b) else None
  | None => None
  end.

Definition create_record (self : Env) (generation_type : string)
    (batch_index : nat) (image : Image.t) : ImageRecord.t :=
  let settings := default Settings.empty (Image.settings image) in
  let lora_info := truthy_dumps (Settings.lora settings) in
  let controlnet_info := truthy_dumps (Settings.controlnet settings) in
  let filename :=
    match Image.filename image with
    | Some f => f
    | None =>
        match Image.url image with
        | Some u => after_last_slash u
        | None => "image_" +:+ pretty batch_index +:+ ".png"
        end
    end in
  {| ImageRecord.id :=
       default (generation_type +:+ "_" +:+ pretty batch_index) (Image.id image);
     ImageRecord.filename := filename;
     ImageRecord.relative_path :=
       "grids/" +:+ generation_type +:+ "/" +:+ filename;
     ImageRecord.prompt := default "" (Image.prompt image);
     ImageRecord.negative_prompt := default "" (Image.negativePrompt image);
     ImageRecord.model_name := default "unknown" (Settings.model_name settings);
     ImageRecord.sampler_name :=
       default "unknown" (Settings.sampler_name settings);
     ImageRecord.steps := default 20 (Settings.steps settings);
     ImageRecord.cfg_scale := default (PyFloat "7.0") (Settings.cfg_scale settings);
     ImageRecord.width := default 512 (Settings.width settings);
     ImageRecord.height := default 512 (Settings.height settings);
     ImageRecord.seed := default (-1) (Settings.seed settings);
     ImageRecord.timestamp := default (now_iso self) (Image.timestamp image);
     ImageRecord.generation_type := generation_type;
     ImageRecord.batch_index := batch_index;
     ImageRecord.denoising_strength := Settings.denoising_strength settings;
     ImageRecord.input_image_path :=
       match Settings.input_image settings with
       | Some b => if truthy b then Some ("grids/input_images/" +:+ filename)
                   else None
       | None => None
       end;
     ImageRecord.lora_models := lora_info;
     ImageRecord.controlnet_info := controlnet_info;
     ImageRecord.file_size_bytes := Image.file_size image |}.

Definition create_csv_records (self : Env) (gallery_data : gallery_data)
  : list ImageRecord.t :=
  flat_map (fun item => imap (create_record self (fst item)) (snd item))
           gallery_data.

(** *** [write_csv] *)

(** The rows [write_csv] writes at [csv_path]: a header alone for no
    records, else the keys of the first record's dictionary and one row for
    each record. *)
Definition write_csv (records : list ImageRecord.t) : csv.file :=
  match records with
  | [] => [ImageRecord.get_required_columns]
  | _ =>
      let data := map ImageRecord.asdict records in
      match data with
      | [] => []
      | d0 :: _ =>
          let fieldnames := map fst d0 in
          fieldnames :: map (csv.writerow fieldnames) data
      end
  end.

(** *** File operations on the staging directory *)

Definition set_temp_dir (t : option tree) : M unit :=
  let! s := Run.get in
  Run.put {| temp_dir := t; reports_dir := reports_dir s |}.

(** [os.makedirs (path, exist_ok=True)] for a directory at or below the
    staging directory: what is there stays. *)
Definition makedirs (at_ : site) : M unit :=
  let! env := Run.ask in
  do! Run.may_raise (faults env at_) in
  let! s := Run.get in
  match temp_dir s with
  | Some _ => Run.ret tt
  | None => set_temp_dir (Some ∅)
  end.

(** [open (os.path.join (temp_dir, name), 'w')] and writing [c]. *)
Definition write_file (at_ : site) (name : string) (c : content) : M unit :=
  let! env := Run.ask in
  do! Run.may_raise (faults env at_) in
  let! s := Run.get in
  match temp_dir s with
  | Some t => set_temp_dir (Some (<[name := c]> t))
  | None => Run.raise (OSError "No such file or directory")
  end.

(** Opening [os.path.join (temp_dir, name)] and reading it as CSV: the rows,
    or the exception. *)
Definition open_csv (at_ : site) (name : string) : M (outcome csv.file) :=
  let! env := Run.ask in
  let! s := Run.get in
  Run.ret
    match faults env at_ with
    | Some e => Raises e
    | None =>
        match temp_dir s with
        | Some t =>
            match t !! name with
            | Some (CsvFile rows) => Returns rows
            | Some _ => Raises (ValueError "not a CSV file")
            | None => Raises (OSError "No such file or directory")
            end
        | None => Raises (OSError "No such file or directory")
        end
    end.

(** Opening the archive [name] of the reports directory. *)
Definition open_zip (at_ : site) (name : string) : M (outcome tree) :=
  let! env := Run.ask in
  let! s := Run.get in
  Run.ret
    match faults env at_ with
    | Some e => Raises e
    | None =>
        match reports_dir s !! name with
        | Some z => Returns z
        | None => Raises (OSError "No such file or directory")
        end
    end.

(** *** [generate_config_json], [generate_readme] *)

Definition _get_models_info (self : Env) : blob :=
  match models_response self with
  | Some checkpoints => checkpoints
  | None => Blob false "[]"
  end.

Definition generate_config_json : M config :=
  let! self := Run.ask in
  match get_settings self with
  | Raises e => Run.raise e
  | Returns settings =>
      let models_info := _get_models_info self in
      Run.ret {| generated_at := now_iso self;
                 dreamlayer_version := "1.0.0";
                 report_format_version := "1.0";
                 system_settings := settings;
                 checkpoints := models_info;
                 output_directory := output_dir self;
                 served_images_directory := served_images_dir self;
                 reports_directory := reports_path self |}
  end.

(** The README is kept as the three values its template is filled with. *)
Definition generate_readme (self : Env) (total_images : nat)
    (generation_types : list string) : content :=
  ReadmeMd (now_text self) total_images generation_types.

(** *** [copy_images_to_bundle] *)

Record copy_info : Type := {
  copied_files : list string;
  missing_files : list string;
  generation_types : list string
}.

(** [os.path.exists (os.path.join (served_images_dir, name))] and, when it
    holds, what is there. *)
Definition served_lookup (self : Env) (name : string) : option DirEntry :=
  match served_images self with
  | Some listing => dict_get listing name
  | None => None
  end.

(** [shutil.copy2 (src_path, dest_path)] *)
Definition copy2 (src : string) (stat : DirEntry) (dest : string) : M unit :=
  let! env := Run.ask in
  do! Run.may_raise (faults env (Copy src)) in
  if is_file stat then
    let! s := Run.get in
    match temp_dir s with
    | Some t => set_temp_dir (Some (<[dest := ImageFile stat]> t))
    | None => Run.raise (OSError "No such file or directory")
    end
  else Run.raise (OSError "Is a directory").

(** One turn of the loop over the records; [acc] is
    [(copied_files, missing_files)]. *)
Definition copy_record (record : ImageRecord.t)
    (acc : list string * list string) : M (list string * list string) :=
  let! self := Run.ask in
  let '(copied_files, missing_files) := acc in
  let dest := ImageRecord.relative_path record in
  match served_lookup self (ImageRecord.filename record) with
  | Some stat =>
      Run.try_except
        (do! copy2 (ImageRecord.filename record) stat dest in
         Run.ret ((copied_files ++ [dest])%list, missing_files))
        (fun e =>
           Run.ret (copied_files,
                    (missing_files ++ [dest +:+ ": " +:+ str_exn e])%list))
  | None =>
      Run.ret (copied_files,
               (missing_files ++ [dest +:+ ": Source file not found"])%list)
  end.

Definition copy_images_to_bundle (records : list ImageRecord.t)
  : M copy_info :=
  do! makedirs MakeGrids in
  let generation_types : gset string :=
    list_to_set (map ImageRecord.generation_type records) in
  do! Run.for_each (elements generation_types)
                    (fun _ _ => makedirs MakeGrids) tt in
  let! acc := Run.for_each records copy_record ([], []) in
  Run.ret {| copied_files := fst acc;
             missing_files := snd acc;
             generation_types := elements generation_types |}.

(** *** [_validate_csv_paths_in_zip] *)

Inductive path_check : Type :=
| PathsChecked (valid : bool) (total_csv_paths valid_paths : nat)
               (missing_paths : list string) (validation_passed : bool)
| PathsFailed (error : string).

Definition paths_valid (v : path_check) : bool :=
  match v with
  | PathsChecked b _ _ _ _ => b
  | PathsFailed _ => false
  end.

(** [row.get ('relative_path', '') for row in reader
     if row.get ('relative_path')] *)
Definition csv_paths (f : csv.file) : list string :=
  omap (fun row =>
          match csv.row_get row "relative_path" "" with
          | Some p => if String.eqb p "" then None else Some p
          | None => None
          end)
       (csv.DictReader f).

(** [zipped] and [opened] are what opening the archive and the CSV file
    give, in that order. *)
Definition _validate_csv_paths_in_zip
    (zipped : outcome tree) (opened : outcome csv.file) : path_check :=
  match zipped with
  | Raises e => PathsFailed (str_exn e)
  | Returns z =>
      let zip_files : gset string := dom z in
      match opened with
      | Raises e => PathsFailed (str_exn e)
      | Returns f =>
          let csv_paths := csv_paths f in
          let missing_paths :=
            filter (fun path => path ∉ zip_files) csv_paths in
          let valid_paths :=
            filter (fun path => path ∈ zip_files) csv_paths in
          PathsChecked (Nat.eqb (length missing_paths) 0)
                       (length csv_paths) (length valid_paths)
                       missing_paths
                       (Nat.eqb (length missing_paths) 0)
      end
  end.

(** *** [create_report_bundle] *)

(** The dictionary returned with [status: success]. *)
Module Bundle.
Record t : Type := {
  report_path : string;
  report_filename : string;
  total_images : nat;
  csv_validation : ImageRecord.validation;
  path_validation : path_check;
  copied_files : nat;
  missing_files : list string;
  generation_types : list string;
  bundle_size_bytes : Z
}.
End Bundle.

(** The dictionary returned: [status: success] with its fields, or
    [status: error] with the message. *)
Inductive result : Type :=
| Success (b : Bundle.t)
| Error (error : string).

(** Writing the archive: every file under the staging directory, under its
    path relative to it. *)
Definition write_zip (output_filename : string) : M unit :=
  let! env := Run.ask in
  do! Run.may_raise (faults env WriteZip) in
  let! s := Run.get in
  Run.put {| temp_dir := temp_dir s;
             reports_dir :=
               <[output_filename := default ∅ (temp_dir s)]> (reports_dir s) |}.

(** The body of the [try]. *)
Definition create_report_bundle_try (output_filename : string) : M result :=
  let! self := Run.ask in
  let output_path := reports_path self +:+ "/" +:+ output_filename in
  (* 1. Fetch gallery data *)
  let gallery_data := fetch_gallery_data self in
  (* 2. Create CSV records *)
  do! Run.may_raise (faults self CreateRecords) in
  let records := create_csv_records self gallery_data in
  (* 3. Write CSV file *)
  do! write_file WriteCsv "results.csv" (CsvFile (write_csv records)) in
  (* 4. Validate CSV schema *)
  let! opened := open_csv ReadCsv "results.csv" in
  let csv_validation := ImageRecord.validate_csv_schema opened in
  (* 5. Generate configuration JSON *)
  let! config := generate_config_json in
  do! write_file WriteConfig "config.json" (ConfigJson config) in
  (* 6. Copy images to bundle structure *)
  let! copy_info := copy_images_to_bundle records in
  (* 7. Generate README *)
  let readme_content :=
    generate_readme self (length records) (generation_types copy_info) in
  do! write_file WriteReadme "README.md" readme_content in
  (* 8. Create ZIP bundle *)
  do! write_zip output_filename in
  (* 9. Validate all paths in CSV resolve to files in ZIP *)
  let! zipped := open_zip ReadZip output_filename in
  let! reopened := open_csv ReadCsvPaths "results.csv" in
  let path_validation := _validate_csv_paths_in_zip zipped reopened in
  let! s := Run.get in
  Run.ret (Success
    {| Bundle.report_path := output_path;
       Bundle.report_filename := output_filename;
       Bundle.total_images := length records;
       Bundle.csv_validation := csv_validation;
       Bundle.path_validation := path_validation;
       Bundle.copied_files := length (copied_files copy_info);
       Bundle.missing_files := missing_files copy_info;
       Bundle.generation_types := generation_types copy_info;
       Bundle.bundle_size_bytes :=
         match reports_dir s !! output_filename with
         | Some z => getsize self z
         | None => 0
         end |}).

(** The [finally]: remove the staging directory if it is there. *)
Definition cleanup : M unit :=
  let! env := Run.ask in
  let! s := Run.get in
  match temp_dir s with
  | Some _ =>
      do! Run.may_raise (faults env Cleanup) in
      set_temp_dir None
  | None => Run.ret tt
  end.

Definition create_report_bundle (output_filename : option string) : M result :=
  let! self := Run.ask in
  let output_filename :=
    match output_filename with
    | None => "dreamlayer_report_" +:+ now_stamp self +:+ ".zip"
    | Some name => name
    end in
  do! makedirs MakeStaging in
  Run.try_finally
    (Run.try_except
       (create_report_bundle_try output_filename)
       (fun e => Run.ret (Error (str_exn e))))
    cleanup.

End report_generator.

(** ** [report_bundle.py] *)
Module report_bundle.
Import Py.
Import run_registry.

(** *** Files the generator writes *)

Record config_data : Type := {
  generated_at : string;
  total_runs : nat;
  config_generation_types : list string;
  models_used : list string;
  config_runs : list RunConfig
}.

Inductive content : Type :=
| CsvFile (rows : csv.file)
| ConfigJson (c : config_data)
| ReadmeMd (generated_on : string) (total_runs : nat)
           (generation_types models_used : list string)
           (images_included : nat)
| ImageFile (name : string).

Abbreviation tree := (gmap string content).

(** *** The world of one call *)

(** The places of the registry-keyed [create_report_bundle] where something
    outside the code may raise, in the order the method reaches them;
    [Cleanup] is [shutil.rmtree] of the bundle directory. *)
Inductive site : Type :=
| MakeBundleDir
| WriteCsv
| ReadCsv
| CopyCsv
| WriteConfig
| CopyConfig
| MakeImagesDir
| Copy (filename : string)
| WriteReadme
| CopyReadme
| WriteZip
| RemoveTemp
| Cleanup.

(** [registry] is the generator's registry, [output_files] the names that
    exist under [output_dir], [str_hash] the process's [hash] on strings. *)
Record Env : Type := {
  registry : RunRegistry;
  output_files : gset string;
  now_iso : string;
  now_text : string;
  str_hash : string -> Z;
  faults : site -> option exn
}.

(** The working directory (the three temporary files), the bundle
    directory when it exists, and [report.zip] when it exists. *)
Record Store : Type := {
  cwd : tree;
  bundle_dir : option tree;
  report_zip : option tree
}.

Abbreviation M := (Run.M Env Store).

Definition set_cwd (t : tree) : M unit :=
  let! s := Run.get in
  Run.put {| cwd := t; bundle_dir := bundle_dir s;
             report_zip := report_zip s |}.

Definition set_bundle_dir (t : option tree) : M unit :=
  let! s := Run.get in
  Run.put {| cwd := cwd s; bundle_dir := t; report_zip := report_zip s |}.

(** Writing a file of the working directory. *)
Definition write_temp (at_ : site) (name : string) (c : content) : M unit :=
  let! env := Run.ask in
  do! Run.may_raise (faults env at_) in
  let! s := Run.get in
  set_cwd (<[name := c]> (cwd s)).

(** [os.makedirs (path, exist_ok=True)] at or below the bundle directory. *)
Definition makedirs (at_ : site) : M unit :=
  let! env := Run.ask in
  do! Run.may_raise (faults env at_) in
  let! s := Run.get in
  match bundle_dir s with
  | Some _ => Run.ret tt
  | None => set_bundle_dir (Some ∅)
  end.

(** Storing [c] at [dest] in the bundle directory. *)
Definition store_in_bundle (dest : string) (c : content) : M unit :=
  let! s := Run.get in
  match bundle_dir s with
  | Some t => set_bundle_dir (Some (<[dest := c]> t))
  | None => Run.raise (OSError "No such file or directory")
  end.

(** [shutil.copy2 (temp_path, os.path.join (bundle_dir, dest))] *)
Definition copy_temp (at_ : site) (temp_path dest : string) : M unit :=
  let! env := Run.ask in
  do! Run.may_raise (faults env at_) in
  let! s := Run.get in
  match cwd s !! temp_path with
  | Some c => store_in_bundle dest c
  | None => Run.raise (OSError "No such file or directory")
  end.

(** [shutil.rmtree (bundle_dir)] *)
Definition rmtree : M unit :=
  let! env := Run.ask in
  do! Run.may_raise (faults env Cleanup) in
  set_bundle_dir None.

(** *** [ReportBundleGenerator] *)
Module ReportBundleGenerator.

Definition required_columns : list string :=
  [ "run_id"; "timestamp"; "model"; "vae"; "prompt"; "negative_prompt";
    "seed"; "sampler"; "steps"; "cfg_scale"; "width"; "height";
    "batch_size"; "batch_count"; "generation_type"; "image_paths";
    "loras"; "controlnets"; "workflow_hash" ].

(** [json.dumps] of a list. *)
Definition dumps_list (l : list blob) : string :=
  "[" +:+ String.concat ", " (map dumps l) +:+ "]".

Definition csv_row (self : Env) (run : RunConfig) : dict csv.value :=
  let loras_json :=
    match loras run with [] => "[]" | l => dumps_list l end in
  let controlnets_json :=
    match controlnets run with [] => "[]" | l => dumps_list l end in
  let workflow_hash := pretty (str_hash self (dumps (workflow run))) in
  let image_paths :=
    match generated_images run with
    | [] => ""
    | l => String.concat ";" l
    end in
  [ ("run_id", csv.VStr (run_id run));
    ("timestamp", csv.VStr (timestamp run));
    ("model", csv.VStr (model run));
    ("vae", csv.VStr (default "" (vae run)));
    ("prompt", csv.VStr (prompt run));
    ("negative_prompt", csv.VStr (negative_prompt run));
    ("seed", csv.VInt (seed run));
    ("sampler", csv.VStr (sampler run));
    ("steps", csv.VInt (steps run));
    ("cfg_scale", csv.VFloat (cfg_scale run));
    ("width", csv.VInt (width run));
    ("height", csv.VInt (height run));
    ("batch_size", csv.VInt (batch_size run));
    ("batch_count", csv.VInt (batch_count run));
    ("generation_type", csv.VStr (generation_type run));
    ("image_paths", csv.VStr image_paths);
    ("loras", csv.VStr loras_json);
    ("controlnets", csv.VStr controlnets_json);
    ("workflow_hash", csv.VStr workflow_hash) ].

(** [generate_csv]: writes [temp_results.csv], returns its path. *)
Definition generate_csv (runs : list RunConfig) : M string :=
  let! self := Run.ask in
  let csv_path := "temp_results.csv" in
  do! write_temp WriteCsv csv_path
        (CsvFile (required_columns ::
                  map (fun run => csv.writerow required_columns (csv_row self run))
                      runs)) in
  Run.ret csv_path.

(** The check on what opening [csv_path] gives. A file without a first row
    has [fieldnames = None], and the membership test raises, which the
    [except] turns into [False]. *)
Definition check_schema (opened : outcome csv.file) : bool :=
  match opened with
  | Returns [] => false
  | Returns (fieldnames :: _) =>
      let missing_columns :=
        filter (fun col => col ∉ fieldnames) required_columns in
      match missing_columns with
      | [] => true
      | _ => false
      end
  | Raises _ => false
  end.

Definition validate_csv_schema (csv_path : string) : M bool :=
  let! env := Run.ask in
  let! s := Run.get in
  Run.ret (check_schema
    match faults env ReadCsv with
    | Some e => Raises e
    | None =>
        match cwd s !! csv_path with
        | Some (CsvFile rows) => Returns rows
        | Some _ => Raises (ValueError "not a CSV file")
        | None => Raises (OSError "No such file or directory")
        end
    end).

(** One turn of the inner loop of [copy_images_to_bundle]. *)
Definition copy_image (image_filename : string) (copied_images : list string)
  : M (list string) :=
  let! self := Run.ask in
  if String.eqb image_filename "" then Run.ret copied_images
  else if bool_decide (image_filename ∈ output_files self) then
    do! makedirs MakeImagesDir in
    Run.try_except
      (do! Run.may_raise (faults self (Copy image_filename)) in
       do! store_in_bundle ("images/" +:+ image_filename)
                           (ImageFile image_filename) in
       Run.ret (copied_images ++ [image_filename])%list)
      (fun _ => Run.ret copied_images)
  else Run.ret copied_images.

Definition copy_images_to_bundle (runs : list RunConfig) : M (list string) :=
  Run.for_each runs
    (fun run => Run.for_each (generated_images run) copy_image)
    [].

Definition create_config_json (runs : list RunConfig) : M string :=
  let! self := Run.ask in
  let generation_types : gset string :=
    list_to_set (map generation_type runs) in
  let models : gset string := list_to_set (map model runs) in
  let config_data :=
    {| generated_at := now_iso self;
       total_runs := length runs;
       config_generation_types := elements generation_types;
       models_used := elements models;
       config_runs := runs |} in
  let config_path := "temp_config.json" in
  do! write_temp WriteConfig config_path (ConfigJson config_data) in
  Run.ret config_path.

Definition create_readme (runs : list RunConfig) (copied_images : list string)
  : M string :=
  let! self := Run.ask in
  let generation_types : gset string :=
    list_to_set (map generation_type runs) in
  let models : gset string := list_to_set (map model runs) in
  let readme_path := "temp_README.md" in
  do! write_temp WriteReadme readme_path
        (ReadmeMd (now_text self) (length runs) (elements generation_types)
                  (elements models) (length copied_images)) in
  Run.ret readme_path.

(** Writing [report.zip] from the bundle directory. *)
Definition write_zip : M unit :=
  let! env := Run.ask in
  do! Run.may_raise (faults env WriteZip) in
  let! s := Run.get in
  Run.put {| cwd := cwd s; bundle_dir := bundle_dir s;
             report_zip := Some (default ∅ (bundle_dir s)) |}.

(** [os.remove] of each temporary file that exists. *)
Definition remove_temp (temp_file : string) (_ : unit) : M unit :=
  let! env := Run.ask in
  let! s := Run.get in
  match cwd s !! temp_file with
  | Some _ =>
      do! Run.may_raise (faults env RemoveTemp) in
      set_cwd (delete temp_file (cwd s))
  | None => Run.ret tt
  end.

(** The body of the [try]. *)
Definition create_report_bundle_try (runs : list RunConfig) : M string :=
  let! csv_path := generate_csv runs in
  let! ok := validate_csv_schema csv_path in
  if negb ok then Run.raise (ValueError "CSV schema validation failed")
  else
    do! copy_temp CopyCsv csv_path "results.csv" in
    let! config_path := create_config_json runs in
    do! copy_temp CopyConfig config_path "config.json" in
    let! copied_images := copy_images_to_bundle runs in
    let! readme_path := create_readme runs copied_images in
    do! copy_temp CopyReadme readme_path "README.md" in
    let zip_path := "report.zip" in
    do! write_zip in
    do! Run.for_each [csv_path; config_path; readme_path] remove_temp tt in
    do! rmtree in
    Run.ret zip_path.

Definition create_report_bundle (run_ids : option (list string)) : M string :=
  let! self := Run.ask in
  let runs :=
    match run_ids with
    | Some ((_ :: _) as run_ids) =>
        omap (fun run_id => get_run (registry self) run_id) run_ids
    | Some [] | None => get_all_runs (registry self)
    end in
  match runs with
  | [] => Run.raise (ValueError "No runs found to include in report")
  | _ =>
      do! makedirs MakeBundleDir in
      Run.try_except
        (create_report_bundle_try runs)
        (fun e =>
           let! s := Run.get in
           do! match bundle_dir s with
               | Some _ => rmtree
               | None => Run.ret tt
               end in
           Run.raise e)
  end.

End ReportBundleGenerator.

(** *** The [/api/report-bundle] route *)

Record response : Type := {
  status : string;
  message : string;
  file_path : option string;
  http_status : Z
}.

(** [run_ids] is the [run_ids] entry of the request body, if it has one. *)
Definition create_report_bundle (run_ids : option (list string)) : M response :=
  Run.try_except
    (let run_ids := default [] run_ids in
     let! zip_path := ReportBundleGenerator.create_report_bundle (Some run_ids) in
     Run.ret {| status := "success";
                message := "Report bundle created successfully";
                file_path := Some zip_path;
                http_status := 200 |})
    (fun e =>
       Run.ret {| status := "error";
                  message := str_exn e;
                  file_path := None;
                  http_status := 500 |}).

End report_bundle.

(* ===================================================================== *)
(** * Part II: properties *)
(* ===================================================================== *)

(** ** The run registry *)
Module registry_facts.
Import Py run_registry.

Lemma dict_in_get {V} (d : dict V) (k : string) :
  dict_in d k = false <-> dict_get d k = None.
Proof.
  unfold dict_in. destruct (dict_get d k); split; congruence.
Qed.

(** C10. Deleting a run id the registry does not hold returns [False] and
    leaves the run mapping and the disk, the storage file included, as they
    were: nothing is rewritten. *)
Theorem delete_run_absent (self : RunRegistry) (id : string) (fs : Disk) :
  get_run self id = None ->
  delete_run self id fs = (false, self, fs).
Proof.
  unfold get_run, delete_run. intros Habsent.
  apply dict_in_get in Habsent. now rewrite Habsent.
Qed.

Definition sample_run : RunConfig :=
  {| run_id := "run-1"; timestamp := "2024-01-01T00:00:00";
     model := "sd15.safetensors"; vae := None; loras := []; controlnets := [];
     prompt := "a cat"; negative_prompt := ""; seed := 12345;
     sampler := "euler"; steps := 20; cfg_scale := PyFloat "7.0";
     width := 512; height := 512; batch_size := 1; batch_count := 1;
     workflow := Blob false "{}"; version := "1.0.0";
     generated_images := ["cat.png"]; generation_type := "txt2img" |}.

Definition sample_registry : RunRegistry :=
  {| storage_file := "run_registry.json"; runs := [("run-1", sample_run)] |}.

Definition sample_disk : Disk :=
  {| contents := {[ "run_registry.json" := [("run-1", sample_run)] ]};
     unwritable := ∅ |}.

Lemma delete_run_absent_witness :
  get_run sample_registry "non-existent-run" = None /\
  delete_run sample_registry "non-existent-run" sample_disk
  = (false, sample_registry, sample_disk).
Proof.
  split; [reflexivity | apply delete_run_absent; reflexivity].
Defined.

(** A run that is there is removed and the file rewritten without it. *)
Example delete_run_present :
  let '(ok, self', fs') := delete_run sample_registry "run-1" sample_disk in
  ok = true /\ runs self' = [] /\ contents fs' !! "run_registry.json" = Some [].
Proof. vm_compute. auto. Qed.

Lemma get_all_runs_empty (self : RunRegistry) :
  runs self = [] -> get_all_runs self = [].
Proof. unfold get_all_runs. now intros ->. Qed.

Lemma get_run_empty (self : RunRegistry) (id : string) :
  runs self = [] -> get_run self id = None.
Proof. unfold get_run. now intros ->. Qed.

End registry_facts.

(** ** The CSV schema and its validator *)
Module schema_facts.
Import Py report_generator.

Definition optional_columns : list string :=
  [ "denoising_strength"; "input_image_path"; "lora_models";
    "controlnet_info"; "file_size_bytes" ].

(** Membership of a given name in a given list of names. *)
Ltac in_names :=
  apply list_elem_of_In; simpl;
  repeat first [left; reflexivity | right].

Ltac not_in_names H :=
  apply list_elem_of_In in H; simpl in H;
  repeat (destruct H as [H | H]; [discriminate H|]); destruct H.

Lemma required_columns_length :
  length ImageRecord.get_required_columns = 15%nat.
Proof. reflexivity. Qed.

Lemma difference_empty_iff (req act : list string) :
  size (list_to_set req ∖ list_to_set act : gset string) = 0%nat <->
  forall c, c ∈ req -> c ∈ act.
Proof.
  rewrite size_empty_iff. split.
  - intros Hempty c Hc.
    destruct (decide (c ∈ act)) as [|Hnot]; [done|].
    exfalso. apply (not_elem_of_empty (C := gset string) c), Hempty.
    apply elem_of_difference. now rewrite !elem_of_list_to_set.
  - intros Hall c. split; [|intros H; now apply not_elem_of_empty in H].
    rewrite elem_of_difference, !elem_of_list_to_set. intros [Hc Hnot].
    destruct Hnot. now apply Hall.
Qed.

Lemma difference_elements (req act : list string) (c : string) :
  c ∈ elements (list_to_set req ∖ list_to_set act : gset string) <->
  c ∈ req /\ c ∉ act.
Proof.
  now rewrite elem_of_elements, elem_of_difference, !elem_of_list_to_set.
Qed.

(** The validator's verdict, in terms of sets: valid exactly when the set of
    missing columns is empty. *)
Lemma valid_iff_none_missing (f : csv.file) :
  ImageRecord.valid (ImageRecord.validate_csv_schema (Returns f)) = true <->
  forall c, c ∈ ImageRecord.get_required_columns -> c ∈ csv.fieldnames f.
Proof.
  cbn [ImageRecord.validate_csv_schema ImageRecord.valid].
  rewrite Nat.eqb_eq. apply difference_empty_iff.
Qed.

Lemma missing_columns_spec (f : csv.file) :
  exists m,
    ImageRecord.missing_columns (ImageRecord.validate_csv_schema (Returns f))
    = Some m /\
    NoDup m /\
    forall c, c ∈ m <->
              c ∈ ImageRecord.get_required_columns /\ c ∉ csv.fieldnames f.
Proof.
  eexists. split; [reflexivity|]. split; [apply NoDup_elements|].
  intros c. apply difference_elements.
Qed.

Lemma extra_columns_spec (f : csv.file) :
  exists x,
    ImageRecord.extra_columns (ImageRecord.validate_csv_schema (Returns f))
    = Some x /\
    NoDup x /\
    forall c, c ∈ x <->
              c ∈ csv.fieldnames f /\ c ∉ ImageRecord.get_required_columns.
Proof.
  eexists. split; [reflexivity|]. split; [apply NoDup_elements|].
  intros c. apply difference_elements.
Qed.

(** A list without repetition holding exactly two given names is one of the
    two orders of them. *)
Lemma two_names (m : list string) (a b : string) :
  a <> b -> NoDup m -> (forall c, c ∈ m <-> c = a \/ c = b) -> m ≡ₚ [a; b].
Proof.
  intros Hab Hnd Hm.
  apply NoDup_Permutation; [done | |].
  - apply NoDup_cons. split; [|apply NoDup_singleton].
    now rewrite list_elem_of_singleton.
  - intros c. now rewrite Hm, elem_of_cons, list_elem_of_singleton.
Qed.

(** C8. For a CSV file that can be read, [validate_csv_schema] reports valid
    exactly when no required column is missing from the header; it lists the
    missing required columns and, apart, the columns that are not required,
    which never make the file invalid; a file lacking exactly
    [negative_prompt] and [model_name] is invalid with exactly those two
    names as missing columns. *)
Theorem validate_csv_schema_verdict (f : csv.file) :
  let v := ImageRecord.validate_csv_schema (Returns f) in
  (ImageRecord.valid v = true <->
   forall c, c ∈ ImageRecord.get_required_columns -> c ∈ csv.fieldnames f) /\
  (exists m x,
     ImageRecord.missing_columns v = Some m /\
     ImageRecord.extra_columns v = Some x /\
     NoDup m /\ NoDup x /\
     (forall c, c ∈ m <->
                c ∈ ImageRecord.get_required_columns /\ c ∉ csv.fieldnames f) /\
     (forall c, c ∈ x <->
                c ∈ csv.fieldnames f /\ c ∉ ImageRecord.get_required_columns)) /\
  (forall extra rows,
     f = (ImageRecord.get_required_columns ++ extra)%list :: rows ->
     ImageRecord.valid v = true) /\
  ((forall c, c ∈ ImageRecord.get_required_columns ->
              (c ∈ csv.fieldnames f <->
               c <> "negative_prompt" /\ c <> "model_name")) ->
   ImageRecord.valid v = false /\
   exists m, ImageRecord.missing_columns v = Some m /\
             m ≡ₚ ["negative_prompt"; "model_name"]).
Proof.
  intros v. subst v. split; [apply valid_iff_none_missing|].
  split.
  { destruct (missing_columns_spec f) as (m & Hm & Hndm & Hmspec).
    destruct (extra_columns_spec f) as (x & Hx & Hndx & Hxspec).
    exists m, x. auto 10. }
  split.
  { intros extra rows ->. apply valid_iff_none_missing.
    intros c Hc. cbn [csv.fieldnames]. apply elem_of_app. now left. }
  intros Hlack. split.
  - destruct (ImageRecord.valid _) eqn:Hv; [|done].
    pose proof (proj1 (valid_iff_none_missing f) Hv) as Hall.
    assert (Hin : "model_name" ∈ ImageRecord.get_required_columns)
      by in_names.
    specialize (Hall _ Hin). apply Hlack in Hall; [|done]. now destruct Hall.
  - destruct (missing_columns_spec f) as (m & Hm & Hnd & Hspec).
    exists m. split; [done|].
    apply two_names; [done | done |].
    intros c. rewrite Hspec. split.
    + intros [Hreq Hnot].
      destruct (decide (c = "negative_prompt")) as [|Hn1]; [auto|].
      destruct (decide (c = "model_name")) as [|Hn2]; [auto|].
      exfalso. apply Hnot. now apply Hlack.
    + intros [-> | ->];
        (split; [in_names|]);
        (intros Hin; apply Hlack in Hin; [now destruct Hin | in_names]).
Qed.

(** A file with thirteen of the fifteen columns and one that is not in the
    schema. *)
Definition csv_lacking_two : csv.file :=
  [ [ "id"; "filename"; "relative_path"; "prompt"; "sampler_name"; "steps";
      "cfg_scale"; "width"; "height"; "seed"; "timestamp";
      "generation_type"; "batch_index"; "note" ];
    [ "a1"; "x.png"; "grids/txt2img/x.png"; "p"; "euler"; "20"; "7.0";
      "512"; "512"; "1"; "2024-01-01T00:00:00Z"; "txt2img"; "0"; "n" ] ].

Lemma csv_lacking_two_header (c : string) :
  c ∈ ImageRecord.get_required_columns ->
  c ∈ csv.fieldnames csv_lacking_two <->
  c <> "negative_prompt" /\ c <> "model_name".
Proof.
  unfold ImageRecord.get_required_columns, csv_lacking_two.
  cbn [csv.fieldnames]. intros Hc.
  repeat (apply elem_of_cons in Hc as [-> | Hc]);
    [.. | now apply elem_of_nil in Hc];
    (split;
     [ intros Hin; first [ split; discriminate | not_in_names Hin ]
     | intros [H1 H2]; first [ now destruct H1 | now destruct H2 | in_names ] ]).
Qed.

Lemma validate_csv_schema_verdict_witness :
  ImageRecord.valid (ImageRecord.validate_csv_schema (Returns csv_lacking_two))
  = false /\
  exists m,
    ImageRecord.missing_columns
      (ImageRecord.validate_csv_schema (Returns csv_lacking_two)) = Some m /\
    m ≡ₚ ["negative_prompt"; "model_name"].
Proof.
  apply (validate_csv_schema_verdict csv_lacking_two).
  apply csv_lacking_two_header.
Defined.

(** The same file through the validator, evaluated. *)
Example csv_lacking_two_report :
  ImageRecord.validate_csv_schema (Returns csv_lacking_two)
  = ImageRecord.Checked false ImageRecord.get_required_columns
      (csv.fieldnames csv_lacking_two)
      (elements ({["negative_prompt"; "model_name"]} : gset string))
      ["note"] 1.
Proof. vm_compute. reflexivity. Qed.

(** A file that cannot be opened gives the error report. *)
Example validate_unreadable :
  ImageRecord.validate_csv_schema (Raises (OSError "No such file"))
  = ImageRecord.Failed "No such file" ImageRecord.get_required_columns.
Proof. reflexivity. Qed.

End schema_facts.

(** ** Writing the CSV file *)
Module write_csv_facts.
Import Py report_generator schema_facts.

Lemma write_csv_header_cons (r : ImageRecord.t) (rs : list ImageRecord.t) :
  csv.fieldnames (write_csv (r :: rs))
  = (ImageRecord.get_required_columns ++ optional_columns)%list.
Proof. reflexivity. Qed.

Lemma write_csv_has_required (records : list ImageRecord.t) (c : string) :
  c ∈ ImageRecord.get_required_columns ->
  c ∈ csv.fieldnames (write_csv records).
Proof.
  intros Hc. destruct records as [|r rs]; [exact Hc|].
  rewrite write_csv_header_cons. apply elem_of_app. now left.
Qed.

Lemma write_csv_rows_cons (r : ImageRecord.t) (rs : list ImageRecord.t) :
  tail (write_csv (r :: rs))
  = map (fun r' => csv.writerow
                     (ImageRecord.get_required_columns ++ optional_columns)
                     (ImageRecord.asdict r'))
        (r :: rs).
Proof.
  change (tail (write_csv (r :: rs)))
    with (map (csv.writerow
                 (ImageRecord.get_required_columns ++ optional_columns))
              (map ImageRecord.asdict (r :: rs))).
  apply List.map_map.
Qed.

Lemma writerow_length (names : list string) (d : dict csv.value) :
  length (csv.writerow names d) = length names.
Proof. unfold csv.writerow. apply length_map. Qed.

Lemma writerow_not_blank (names : list string) (d : dict csv.value) :
  names <> [] -> csv.is_blank (csv.writerow names d) = false.
Proof. destruct names; [done | reflexivity]. Qed.

Lemma filter_map_all {A B} (keep : B -> bool) (g : A -> B) (l : list A) :
  (forall a, keep (g a) = true) ->
  List.filter keep (map g l) = map g l.
Proof.
  intros Hkeep. induction l as [|a l IH]; [reflexivity|].
  cbn. now rewrite Hkeep, IH.
Qed.

Lemma filter_bool {A} (keep : A -> bool) (l : list A) :
  filter (fun a => keep a) l = List.filter keep l.
Proof.
  induction l as [|a l IH]; [reflexivity|].
  cbn. rewrite <- IH. unfold filter at 1. cbn.
  destruct (keep a) eqn:E; cbn; rewrite ?E; reflexivity.
Qed.



Definition sample_record : ImageRecord.t :=
  {| ImageRecord.id := "a1";
     ImageRecord.filename := "x.png";
     ImageRecord.relative_path := "grids/txt2img/x.png";
     ImageRecord.prompt := "p";
     ImageRecord.negative_prompt := "n";
     ImageRecord.model_name := "m";
     ImageRecord.sampler_name := "euler";
     ImageRecord.steps := 20;
     ImageRecord.cfg_scale := PyFloat "7.0";
     ImageRecord.width := 512;
     ImageRecord.height := 512;
     ImageRecord.seed := 1;
     ImageRecord.timestamp := "2024-01-01T00:00:00Z";
     ImageRecord.generation_type := "txt2img";
     ImageRecord.batch_index := 0;
     ImageRecord.denoising_strength := None;
     ImageRecord.input_image_path := None;
     ImageRecord.lora_models := None;
     ImageRecord.controlnet_info := None;
     ImageRecord.file_size_bytes := Some 100 |}.


(** The file written for the sample record. *)
Example write_csv_sample :
  write_csv [sample_record]
  = [ [ "id"; "filename"; "relative_path"; "prompt"; "negative_prompt";
        "model_name"; "sampler_name"; "steps"; "cfg_scale"; "width";
        "height"; "seed"; "timestamp"; "generation_type"; "batch_index";
        "denoising_strength"; "input_image_path"; "lora_models";
        "controlnet_info"; "file_size_bytes" ];
      [ "a1"; "x.png"; "grids/txt2img/x.png"; "p"; "n"; "m"; "euler"; "20";
        "7.0"; "512"; "512"; "1"; "2024-01-01T00:00:00Z"; "txt2img"; "0";
        ""; ""; ""; ""; "100" ] ].
Proof. vm_compute. reflexivity. Qed.

(** C5, as stated, fails: for one record the header has twenty columns, the
    five optional ones among them. *)
Lemma header_not_exactly_required :
  length (csv.fieldnames (write_csv [sample_record])) = 20%nat /\
  "denoising_strength" ∈ csv.fieldnames (write_csv [sample_record]) /\
  ~ csv.fieldnames (write_csv [sample_record])
    ≡ₚ ImageRecord.get_required_columns.
Proof.
  split; [reflexivity|]. split.
  - rewrite write_csv_header_cons. in_names.
  - intros Hperm. apply Permutation_length in Hperm. discriminate Hperm.
Qed.

(** C5, amended. The header [write_csv] writes is the fifteen required
    columns alone for no records and, for any records at all, the fifteen in
    their canonical order followed by the five optional columns; which
    optional fields the records fill makes no difference. Every required
    column is in it in both cases. *)
Theorem write_csv_header (records : list ImageRecord.t) :
  csv.fieldnames (write_csv records)
  = match records with
    | [] => ImageRecord.get_required_columns
    | _ => (ImageRecord.get_required_columns ++ optional_columns)%list
    end /\
  take 15 (csv.fieldnames (write_csv records))
  = ImageRecord.get_required_columns /\
  (forall c, c ∈ ImageRecord.get_required_columns ->
             c ∈ csv.fieldnames (write_csv records)).
Proof.
  split; [|split].
  - destruct records as [|r rs]; [reflexivity | apply write_csv_header_cons].
  - destruct records as [|r rs]; [reflexivity|].
    now rewrite write_csv_header_cons.
  - intros c. apply write_csv_has_required.
Qed.

End write_csv_facts.

(** ** The data source *)
Module data_source_facts.
Import Py report_generator.

(** Substring search finds substrings and nothing else. *)
Lemma prefix_spec (k s : string) :
  String.prefix k s = true <-> exists post, s = k +:+ post.
Proof.
  revert s. induction k as [|a k IH]; intros s.
  - destruct s; (split; [intros _; eexists; reflexivity | reflexivity]).
  - destruct s as [|b s]; cbn.
    + split; [discriminate | intros [post H]; discriminate H].
    + destruct (ascii_dec a b) as [->|Hne].
      * rewrite IH. split; intros [post H]; exists post.
        -- now rewrite H.
        -- cbn in H. now injection H.
      * split; [discriminate|]. intros [post H]. cbn in H.
        injection H as Hb Hs. congruence.
Qed.

Lemma contains_spec (s k : string) :
  contains s k = true <-> exists pre post, s = pre +:+ k +:+ post.
Proof.
  induction s as [|a s IH].
  - cbn [contains]. rewrite orb_false_r, prefix_spec. split.
    + intros [post H]. now exists "", post.
    + intros (pre & post & H). destruct pre; [now exists post|discriminate H].
  - cbn [contains]. rewrite orb_true_iff, prefix_spec, IH. split.
    + intros [[post H] | (pre & post & H)].
      * now exists "", post.
      * exists (String a pre), post. cbn. now rewrite H.
    + intros (pre & post & H). destruct pre as [|b pre].
      * left. now exists post.
      * right. exists pre, post. cbn in H. now injection H.
Qed.

(** An entry the scan keeps: an image extension, whatever the case, on a
    regular file. *)
Definition is_image_file (entry : string * DirEntry) : bool :=
  endswith (lower (fst entry)) [".png"; ".jpg"; ".jpeg"; ".webp"]
  && is_file (snd entry).

(** The label the scan gives a file name: the first of the two keyword
    groups that has a keyword in the lower-cased name, else [txt2img]. *)
Definition classify (filename : string) : string :=
  if any_keyword (lower filename) ["img2img"; "controlnet"] then "img2img"
  else if any_keyword (lower filename) ["upscaled"; "extras"; "enhanced"]
       then "extras"
       else "txt2img".

(** The placeholder records of the image files labelled [label], in
    directory order. *)
Definition placeholders (label : string) (listing : list (string * DirEntry))
  : list Image.t :=
  map (fun entry => image_record (fst entry) (snd entry))
      (List.filter (fun entry => is_image_file entry
                                 && String.eqb (classify (fst entry)) label)
                   listing).

Lemma scan_entries (listing : list (string * DirEntry))
    (txt img ext : list Image.t) :
  fold_left scan_entry listing (txt, img, ext)
  = ((txt ++ placeholders "txt2img" listing)%list,
     (img ++ placeholders "img2img" listing)%list,
     (ext ++ placeholders "extras" listing)%list).
Proof.
  revert txt img ext. induction listing as [|[filename stat] listing IH];
    intros txt img ext.
  - cbn. now rewrite !app_nil_r.
  - cbn [fold_left]. unfold placeholders. cbn [List.filter].
    unfold scan_entry at 2, is_image_file, classify. cbn [fst snd].
    destruct (endswith (lower filename) _); cbn [negb andb];
      [|apply IH].
    destruct (is_file stat); cbn [negb andb]; [|apply IH].
    destruct (any_keyword (lower filename) ["img2img"; "controlnet"]).
    { rewrite IH. cbn. unfold placeholders. now rewrite <- !app_assoc. }
    destruct (any_keyword (lower filename) _).
    { rewrite IH. cbn. unfold placeholders. now rewrite <- !app_assoc. }
    rewrite IH. cbn. unfold placeholders. now rewrite <- !app_assoc.
Qed.

(** No snapshot the adapter can use: no file, a file that does not parse, a
    JSON value that is not an object, or an object with none of the three
    keys. *)
Definition no_usable_snapshot (g : gallery_file) : Prop :=
  match g with
  | Object data =>
      dict_in data "txt2img" = false /\ dict_in data "img2img" = false /\
      dict_in data "extras" = false
  | NoFile | Malformed | NotADict => True
  end.





Definition png (size mtime : Z) : DirEntry :=
  {| is_file := true; st_size := size; st_mtime := mtime;
     mtime_iso := "2024-01-01T00:00:00" |}.

Definition sample_served : list (string * DirEntry) :=
  [ ("DreamLayer_00001_.png", png 100 1704067200);
    ("IMG2IMG_upscaled_7.JPG", png 200 1704067201);
    ("enhanced_portrait.webp", png 300 1704067202);
    ("notes.txt", png 10 1704067203);
    ("thumbs.png",
     {| is_file := false; st_size := 0; st_mtime := 0; mtime_iso := "" |}) ].

Definition sample_env (g : gallery_file)
    (served : option (list (string * DirEntry)))
    (faults : site -> option exn) : Env :=
  {| gallery := g;
     served_images := served;
     now_iso := "2024-01-02T03:04:05";
     now_stamp := "20240102_030405";
     now_text := "2024-01-02 03:04:05";
     get_settings := Returns (Blob true "{}");
     models_response := None;
     output_dir := "output";
     served_images_dir := "served_images";
     reports_path := "reports";
     getsize := fun z => 1000 + Z.of_nat (size z);
     faults := faults |}.

Definition no_faults : site -> option exn := fun _ => None.


(** A usable snapshot is returned as it is. *)
Example fetch_gallery_data_snapshot :
  fetch_gallery_data
    (sample_env (Object [("img2img", [])]) (Some sample_served) no_faults)
  = [("img2img", [])].
Proof. reflexivity. Qed.

End data_source_facts.

(** ** The gallery-keyed bundle *)
Module gallery_bundle_facts.
Import Py report_generator schema_facts write_csv_facts data_source_facts.

Abbreviation store t rd := {| temp_dir := t; reports_dir := rd |}.

(** *** The copy loop as a function *)

(** What the loop of [copy_images_to_bundle] leaves: the staging tree and
    the two lists. *)
Fixpoint copy_all (self : Env) (records : list ImageRecord.t)
    (t : tree) (copied missing : list string)
  : tree * list string * list string :=
  match records with
  | [] => (t, copied, missing)
  | r :: rs =>
      let dest := ImageRecord.relative_path r in
      match served_lookup self (ImageRecord.filename r) with
      | None =>
          copy_all self rs t copied
                   (missing ++ [dest +:+ ": Source file not found"])
      | Some stat =>
          match faults self (Copy (ImageRecord.filename r)) with
          | Some e =>
              copy_all self rs t copied
                       (missing ++ [dest +:+ ": " +:+ str_exn e])
          | None =>
              if is_file stat
              then copy_all self rs (<[dest := ImageFile stat]> t)
                            (copied ++ [dest]) missing
              else copy_all self rs t copied
                            (missing ++ [dest +:+ ": Is a directory"])
          end
      end
  end.

Lemma copy_loop (self : Env) (records : list ImageRecord.t)
    (t : tree) (rd : gmap string tree) (copied missing : list string) :
  Run.for_each records copy_record (copied, missing) self (store (Some t) rd)
  = let '(t', copied', missing') := copy_all self records t copied missing in
    (Returns (copied', missing'), store (Some t') rd).
Proof.
  revert t copied missing.
  induction records as [|r rs IH]; intros t copied missing; [reflexivity|].
  cbn [Run.for_each copy_all].
  unfold Run.bind at 1. unfold copy_record at 1.
  unfold Run.bind at 1. cbn [Run.ask].
  destruct (served_lookup self (ImageRecord.filename r)) as [stat|];
    [|apply IH].
  unfold Run.try_except, copy2, Run.bind, Run.ask, Run.may_raise.
  destruct (faults self (Copy (ImageRecord.filename r))) as [e|];
    [apply IH|].
  cbn. destruct (is_file stat); cbn; apply IH.
Qed.

Lemma grids_loop (self : Env) (l : list string)
    (t : tree) (rd : gmap string tree) :
  faults self MakeGrids = None ->
  Run.for_each l (fun _ _ => makedirs MakeGrids) tt self (store (Some t) rd)
  = (Returns tt, store (Some t) rd).
Proof.
  intros Hok. induction l as [|x l IH]; [reflexivity|].
  cbn [Run.for_each]. unfold Run.bind at 1.
  unfold makedirs at 1, Run.bind, Run.ask, Run.may_raise. rewrite Hok.
  cbn. apply IH.
Qed.

Lemma copy_images_to_bundle_run (self : Env) (records : list ImageRecord.t)
    (t : tree) (rd : gmap string tree) :
  copy_images_to_bundle records self (store (Some t) rd)
  = match faults self MakeGrids with
    | Some e => (Raises e, store (Some t) rd)
    | None =>
        let '(t', copied, missing) := copy_all self records t [] [] in
        (Returns {| copied_files := copied;
                    missing_files := missing;
                    generation_types :=
                      elements (list_to_set
                                  (map ImageRecord.generation_type records)
                                : gset string) |},
         store (Some t') rd)
    end.
Proof.
  unfold copy_images_to_bundle. unfold Run.bind at 1.
  unfold makedirs at 1, Run.bind, Run.ask, Run.may_raise.
  destruct (faults self MakeGrids) as [e|] eqn:Hgrids; [reflexivity|].
  cbn [Run.ret Run.get temp_dir].
  pose proof (grids_loop self
    (elements (list_to_set (map ImageRecord.generation_type records)
               : gset string)) t rd Hgrids) as Hloop.
  unfold Run.bind in Hloop |- *.
  rewrite Hloop.
  pose proof (copy_loop self records t rd [] []) as Hcopy.
  rewrite Hcopy.
  destruct (copy_all self records t [] []) as [[t' copied] missing].
  reflexivity.
Qed.

(** *** The call, step by step *)

(** Reading [results.csv] back from the staging tree [t]. *)
Definition read_back (self : Env) (at_ : site) (t : tree) : outcome csv.file :=
  match faults self at_ with
  | Some e => Raises e
  | None =>
      match t !! "results.csv" with
      | Some (CsvFile rows) => Returns rows
      | Some _ => Raises (ValueError "not a CSV file")
      | None => Raises (OSError "No such file or directory")
      end
  end.

Definition the_records (self : Env) : list ImageRecord.t :=
  create_csv_records self (fetch_gallery_data self).

Definition the_config (self : Env) (settings : blob) : config :=
  {| generated_at := now_iso self;
     dreamlayer_version := "1.0.0";
     report_format_version := "1.0";
     system_settings := settings;
     checkpoints := _get_models_info self;
     output_directory := output_dir self;
     served_images_directory := served_images_dir self;
     reports_directory := reports_path self |}.

Definition the_generation_types (self : Env) : list string :=
  elements (list_to_set (map ImageRecord.generation_type (the_records self))
            : gset string).

(** The staging tree once the CSV file and the configuration are written. *)
Definition staged (self : Env) (settings : blob) (t : tree) : tree :=
  <["config.json" := ConfigJson (the_config self settings)]>
    (<["results.csv" := CsvFile (write_csv (the_records self))]> t).

(** The tree that is zipped, and the bundle returned with it. *)
Definition zipped_tree (self : Env) (t3 : tree) : tree :=
  <["README.md" := generate_readme self (length (the_records self))
                                   (the_generation_types self)]> t3.

Definition the_bundle (self : Env) (name : string) (t : tree)
    (t3 : tree) (copied missing : list string) : Bundle.t :=
  {| Bundle.report_path := reports_path self +:+ "/" +:+ name;
     Bundle.report_filename := name;
     Bundle.total_images := length (the_records self);
     Bundle.csv_validation :=
       ImageRecord.validate_csv_schema
         (read_back self ReadCsv
            (<["results.csv" := CsvFile (write_csv (the_records self))]> t));
     Bundle.path_validation :=
       _validate_csv_paths_in_zip
         match faults self ReadZip with
         | Some e => Raises e
         | None => Returns (zipped_tree self t3)
         end
         (read_back self ReadCsvPaths (zipped_tree self t3));
     Bundle.copied_files := length copied;
     Bundle.missing_files := missing;
     Bundle.generation_types := the_generation_types self;
     Bundle.bundle_size_bytes := getsize self (zipped_tree self t3) |}.

(** What the body of the [try] does from a staging tree [t], one case for
    each place it can stop at. *)
Definition try_outcome (self : Env) (name : string) (t : tree)
    (rd : gmap string tree) : outcome result * Store :=
  match faults self CreateRecords with
  | Some e => (Raises e, store (Some t) rd)
  | None =>
  match faults self WriteCsv with
  | Some e => (Raises e, store (Some t) rd)
  | None =>
  let t1 := <["results.csv" := CsvFile (write_csv (the_records self))]> t in
  match get_settings self with
  | Raises e => (Raises e, store (Some t1) rd)
  | Returns settings =>
  match faults self WriteConfig with
  | Some e => (Raises e, store (Some t1) rd)
  | None =>
  let t2 := staged self settings t in
  match faults self MakeGrids with
  | Some e => (Raises e, store (Some t2) rd)
  | None =>
  let '(t3, copied, missing) := copy_all self (the_records self) t2 [] [] in
  match faults self WriteReadme with
  | Some e => (Raises e, store (Some t3) rd)
  | None =>
  match faults self WriteZip with
  | Some e => (Raises e, store (Some (zipped_tree self t3)) rd)
  | None =>
      (Returns (Success (the_bundle self name t t3 copied missing)),
       store (Some (zipped_tree self t3))
             (<[name := zipped_tree self t3]> rd))
  end end end end end end end.

Lemma write_file_run (self : Env) (at_ : site) (name : string) (c : content)
    (t : tree) (rd : gmap string tree) :
  write_file at_ name c self (store (Some t) rd)
  = match faults self at_ with
    | Some e => (Raises e, store (Some t) rd)
    | None => (Returns tt, store (Some (<[name := c]> t)) rd)
    end.
Proof.
  unfold write_file, Run.bind, Run.ask, Run.may_raise.
  now destruct (faults self at_).
Qed.

Lemma open_csv_run (self : Env) (at_ : site) (t : tree)
    (rd : gmap string tree) :
  open_csv at_ "results.csv" self (store (Some t) rd)
  = (Returns (read_back self at_ t), store (Some t) rd).
Proof. reflexivity. Qed.

Lemma generate_config_json_run (self : Env) (s : Store) :
  generate_config_json self s
  = match get_settings self with
    | Returns settings => (Returns (the_config self settings), s)
    | Raises e => (Raises e, s)
    end.
Proof.
  unfold generate_config_json, Run.bind, Run.ask.
  now destruct (get_settings self).
Qed.

Lemma write_zip_run (self : Env) (name : string) (t : tree)
    (rd : gmap string tree) :
  write_zip name self (store (Some t) rd)
  = match faults self WriteZip with
    | Some e => (Raises e, store (Some t) rd)
    | None => (Returns tt, store (Some t) (<[name := t]> rd))
    end.
Proof.
  unfold write_zip, Run.bind, Run.ask, Run.may_raise.
  now destruct (faults self WriteZip).
Qed.

Lemma open_zip_run (self : Env) (name : string) (t z : tree)
    (rd : gmap string tree) :
  open_zip ReadZip name self (store (Some t) (<[name := z]> rd))
  = (Returns match faults self ReadZip with
             | Some e => Raises e
             | None => Returns z
             end,
     store (Some t) (<[name := z]> rd)).
Proof.
  unfold open_zip, Run.bind, Run.ask, Run.get, Run.ret.
  cbn [reports_dir]. now rewrite lookup_insert_eq.
Qed.

Lemma create_report_bundle_try_run (self : Env) (name : string) (t : tree)
    (rd : gmap string tree) :
  create_report_bundle_try name self (store (Some t) rd)
  = try_outcome self name t rd.
Proof.
  unfold create_report_bundle_try, try_outcome.
  unfold Run.bind at 1. cbn [Run.ask].
  unfold Run.bind at 1. unfold Run.may_raise at 1.
  destruct (faults self CreateRecords) as [e|]; [reflexivity|].
  cbn [Run.ret]. fold (the_records self).
  unfold Run.bind at 1. rewrite write_file_run.
  destruct (faults self WriteCsv) as [e|]; [reflexivity|].
  unfold Run.bind at 1. rewrite open_csv_run.
  unfold Run.bind at 1. rewrite generate_config_json_run.
  destruct (get_settings self) as [settings|e]; [|reflexivity].
  unfold Run.bind at 1. rewrite write_file_run.
  destruct (faults self WriteConfig) as [e|]; [reflexivity|].
  fold (staged self settings t).
  unfold Run.bind at 1. rewrite copy_images_to_bundle_run.
  destruct (faults self MakeGrids) as [e|]; [reflexivity|].
  fold (the_records self).
  destruct (copy_all self (the_records self) (staged self settings t) [] [])
    as [[t3 copied] missing].
  cbn [generation_types copied_files missing_files].
  fold (the_generation_types self).
  unfold Run.bind at 1. rewrite write_file_run.
  destruct (faults self WriteReadme) as [e|]; [reflexivity|].
  fold (zipped_tree self t3).
  unfold Run.bind at 1. rewrite write_zip_run.
  destruct (faults self WriteZip) as [e|]; [reflexivity|].
  unfold Run.bind at 1. rewrite open_zip_run.
  unfold Run.bind at 1. rewrite open_csv_run.
  unfold Run.bind at 1. cbn [Run.get Run.ret reports_dir].
  rewrite lookup_insert_eq. reflexivity.
Qed.

(** The staging directory is there when the [try] is left, however it is
    left. *)
Lemma try_outcome_staging (self : Env) (name : string) (t : tree)
    (rd : gmap string tree) :
  exists t', temp_dir (snd (try_outcome self name t rd)) = Some t'.
Proof.
  unfold try_outcome.
  repeat match goal with
         | |- context [match faults self ?x with _ => _ end] =>
             destruct (faults self x)
         | |- context [match get_settings self with _ => _ end] =>
             destruct (get_settings self)
         | |- context [copy_all ?a ?b ?c ?d ?e] =>
             destruct (copy_all a b c d e) as [[? ?] ?]
         end; cbn; eauto.
Qed.

Definition the_filename (self : Env) (output_filename : option string)
  : string :=
  match output_filename with
  | None => "dreamlayer_report_" +:+ now_stamp self +:+ ".zip"
  | Some name => name
  end.

Lemma makedirs_run (self : Env) (at_ : site) (s : Store) :
  makedirs at_ self s
  = match faults self at_ with
    | Some e => (Raises e, s)
    | None => (Returns tt, store (Some (default ∅ (temp_dir s))) (reports_dir s))
    end.
Proof.
  unfold makedirs, Run.bind, Run.ask, Run.may_raise.
  destruct (faults self at_); [reflexivity|].
  destruct s as [[t|] rd]; reflexivity.
Qed.

Lemma cleanup_run (self : Env) (t : tree) (rd : gmap string tree) :
  cleanup self (store (Some t) rd)
  = match faults self Cleanup with
    | Some e => (Raises e, store (Some t) rd)
    | None => (Returns tt, store None rd)
    end.
Proof.
  unfold cleanup, Run.bind, Run.ask, Run.may_raise. cbn.
  now destruct (faults self Cleanup).
Qed.

(** The call from the staging directory on: the [try] with its handler,
    then the [finally]. *)
Lemma create_report_bundle_run (self : Env) (output_filename : option string)
    (s : Store) :
  create_report_bundle output_filename self s
  = match faults self MakeStaging with
    | Some e => (Raises e, s)
    | None =>
        let '(o, s1) :=
          try_outcome self (the_filename self output_filename)
                      (default ∅ (temp_dir s)) (reports_dir s) in
        let r := match o with
                 | Returns r => r
                 | Raises e => Error (str_exn e)
                 end in
        match faults self Cleanup with
        | Some e => (Raises e, s1)
        | None => (Returns r, store None (reports_dir s1))
        end
    end.
Proof.
  unfold create_report_bundle.
  unfold Run.bind at 1. cbn [Run.ask].
  fold (the_filename self output_filename).
  unfold Run.bind at 1. rewrite makedirs_run.
  destruct (faults self MakeStaging) as [e|]; [reflexivity|].
  unfold Run.try_finally, Run.try_except.
  rewrite create_report_bundle_try_run.
  destruct (try_outcome_staging self (the_filename self output_filename)
              (default ∅ (temp_dir s)) (reports_dir s)) as [t' Ht'].
  destruct (try_outcome _ _ _ _) as [o [t1 rd1]].
  cbn [snd temp_dir] in Ht'. subst t1.
  destruct o as [r|e]; cbn [Run.ret]; rewrite cleanup_run;
    now destruct (faults self Cleanup).
Qed.

(** A call that returns [status: success] went through every step. *)
Lemma success_inv (self : Env) (output_filename : option string)
    (s s' : Store) (b : Bundle.t) :
  create_report_bundle output_filename self s = (Returns (Success b), s') ->
  exists settings t3 copied missing,
    get_settings self = Returns settings /\
    copy_all self (the_records self)
             (staged self settings (default ∅ (temp_dir s))) [] []
    = (t3, copied, missing) /\
    b = the_bundle self (the_filename self output_filename)
                   (default ∅ (temp_dir s)) t3 copied missing /\
    s' = store None (<[the_filename self output_filename := zipped_tree self t3]>
                       (reports_dir s)).
Proof.
  rewrite create_report_bundle_run. unfold try_outcome.
  destruct (faults self MakeStaging); [discriminate|].
  destruct (faults self CreateRecords);
    [destruct (faults self Cleanup); discriminate|].
  destruct (faults self WriteCsv);
    [destruct (faults self Cleanup); discriminate|].
  destruct (get_settings self) as [settings|];
    [|destruct (faults self Cleanup); discriminate].
  destruct (faults self WriteConfig);
    [destruct (faults self Cleanup); discriminate|].
  destruct (faults self MakeGrids);
    [destruct (faults self Cleanup); discriminate|].
  destruct (copy_all _ _ _ _ _) as [[t3 copied] missing] eqn:Hcopy.
  destruct (faults self WriteReadme);
    [destruct (faults self Cleanup); discriminate|].
  destruct (faults self WriteZip);
    [destruct (faults self Cleanup); discriminate|].
  destruct (faults self Cleanup); [discriminate|].
  intros H. injection H as <- <-.
  exists settings, t3, copied, missing. auto.
Qed.

(** The steps that stop the call when they raise. *)
Definition no_step_raises (self : Env) : Prop :=
  faults self MakeStaging = None /\ faults self CreateRecords = None /\
  faults self WriteCsv = None /\ (exists settings, get_settings self = Returns settings) /\
  faults self WriteConfig = None /\ faults self MakeGrids = None /\
  faults self WriteReadme = None /\ faults self WriteZip = None /\
  faults self Cleanup = None.

(** When none of them raises the call returns [status: success]. *)
Lemma success_run (self : Env) (output_filename : option string) (s : Store) :
  no_step_raises self ->
  exists b s',
    create_report_bundle output_filename self s = (Returns (Success b), s').
Proof.
  intros (H1 & H2 & H3 & [settings H4] & H5 & H6 & H7 & H8 & H9).
  rewrite create_report_bundle_run. unfold try_outcome.
  rewrite H1, H2, H3, H4, H5, H6.
  destruct (copy_all _ _ _ _ _) as [[t3 copied] missing].
  rewrite H7, H8, H9. eauto.
Qed.

(** *** What the copy loop leaves *)

Lemma copy_all_missing (self : Env) (records : list ImageRecord.t)
    (t : tree) (copied missing : list string) :
  exists m, snd (copy_all self records t copied missing) = (missing ++ m)%list.
Proof.
  revert t copied missing.
  induction records as [|r rs IH]; intros t copied missing.
  - exists []. cbn. now rewrite app_nil_r.
  - cbn [copy_all].
    destruct (served_lookup self (ImageRecord.filename r)) as [stat|].
    + destruct (faults self (Copy (ImageRecord.filename r))) as [e|].
      * destruct (IH t copied (missing ++ [ImageRecord.relative_path r +:+ ": " +:+ str_exn e])%list)
          as [m Hm].
        rewrite Hm, <- app_assoc. eauto.
      * destruct (is_file stat).
        -- apply IH.
        -- destruct (IH t copied (missing ++ [ImageRecord.relative_path r +:+ ": Is a directory"])%list)
             as [m Hm].
           rewrite Hm, <- app_assoc. eauto.
    + destruct (IH t copied (missing ++ [ImageRecord.relative_path r +:+ ": Source file not found"])%list)
        as [m Hm].
      rewrite Hm, <- app_assoc. eauto.
Qed.

(** A path no record names is left as it was. *)
Lemma copy_all_keeps (self : Env) (records : list ImageRecord.t)
    (t : tree) (copied missing : list string) (k : string) :
  (forall r, r ∈ records -> ImageRecord.relative_path r <> k) ->
  fst (fst (copy_all self records t copied missing)) !! k = t !! k.
Proof.
  revert t copied missing.
  induction records as [|r rs IH]; intros t copied missing Hk; [reflexivity|].
  assert (Hrs : forall r', r' ∈ rs -> ImageRecord.relative_path r' <> k).
  { intros r' Hr'. apply Hk. now apply elem_of_cons; right. }
  assert (Hr : ImageRecord.relative_path r <> k).
  { apply Hk. now apply elem_of_cons; left. }
  cbn [copy_all].
  destruct (served_lookup self (ImageRecord.filename r)) as [stat|];
    [|now apply IH].
  destruct (faults self (Copy (ImageRecord.filename r))); [now apply IH|].
  destruct (is_file stat); [|now apply IH].
  rewrite IH by done. now apply lookup_insert_ne.
Qed.

(** What is in the staging tree stays in it. *)
Lemma copy_all_grows (self : Env) (records : list ImageRecord.t)
    (t : tree) (copied missing : list string) (k : string) :
  is_Some (t !! k) ->
  is_Some (fst (fst (copy_all self records t copied missing)) !! k).
Proof.
  revert t copied missing.
  induction records as [|r rs IH]; intros t copied missing Hk; [exact Hk|].
  cbn [copy_all].
  destruct (served_lookup self (ImageRecord.filename r)) as [stat|];
    [|now apply IH].
  destruct (faults self (Copy (ImageRecord.filename r))); [now apply IH|].
  destruct (is_file stat); [|now apply IH].
  apply IH. rewrite lookup_insert. case_decide; eauto.
Qed.


(** With nothing in [missing_files], every record's path is in the tree. *)
Lemma copy_all_complete (self : Env) (records : list ImageRecord.t)
    (t : tree) (copied missing : list string) :
  snd (copy_all self records t copied missing) = [] ->
  forall r, r ∈ records ->
    is_Some (fst (fst (copy_all self records t copied missing))
             !! ImageRecord.relative_path r).
Proof.
  revert t copied missing.
  induction records as [|r0 rs IH]; intros t copied missing Hnil r Hin.
  - now apply elem_of_nil in Hin.
  - cbn [copy_all] in Hnil |- *.
    destruct (served_lookup self (ImageRecord.filename r0)) as [stat|].
    + destruct (faults self (Copy (ImageRecord.filename r0))) as [e|].
      * exfalso. destruct (copy_all_missing self rs t copied
          (missing ++ [ImageRecord.relative_path r0 +:+ ": " +:+ str_exn e])%list)
          as [m Hm].
        rewrite Hm in Hnil. now destruct missing.
      * destruct (is_file stat).
        -- apply elem_of_cons in Hin as [-> | Hin]; [|now apply IH].
           apply copy_all_grows. rewrite lookup_insert_eq. eauto.
        -- exfalso. destruct (copy_all_missing self rs t copied
             (missing ++ [ImageRecord.relative_path r0 +:+ ": Is a directory"])%list)
             as [m Hm].
           rewrite Hm in Hnil. now destruct missing.
    + exfalso. destruct (copy_all_missing self rs t copied
        (missing ++ [ImageRecord.relative_path r0 +:+ ": Source file not found"])%list)
        as [m Hm].
      rewrite Hm in Hnil. now destruct missing.
Qed.

(** *** The records and their paths *)

Lemma create_record_path (self : Env) (generation_type : string)
    (batch_index : nat) (image : Image.t) :
  ImageRecord.relative_path
    (create_record self generation_type batch_index image)
  = "grids/" +:+ generation_type +:+ "/" +:+
    ImageRecord.filename (create_record self generation_type batch_index image).
Proof. reflexivity. Qed.

Lemma records_under_grids (self : Env) (g : gallery_data) (r : ImageRecord.t) :
  r ∈ create_csv_records self g ->
  exists rest, ImageRecord.relative_path r = "grids/" +:+ rest.
Proof.
  unfold create_csv_records. rewrite list_elem_of_In, in_flat_map.
  intros ([gt images] & _ & Hin). cbn [fst snd] in Hin.
  apply list_elem_of_In, elem_of_lookup_imap in Hin as (i & image & -> & _).
  eexists. apply create_record_path.
Qed.

Lemma records_not_top_level (self : Env) (g : gallery_data)
    (r : ImageRecord.t) (k : string) :
  r ∈ create_csv_records self g ->
  k = "results.csv" \/ k = "config.json" \/ k = "README.md" ->
  ImageRecord.relative_path r <> k.
Proof.
  intros Hin Hk. destruct (records_under_grids self g r Hin) as [rest ->].
  destruct Hk as [-> | [-> | ->]]; discriminate.
Qed.

(** *** The paths read back from the CSV file *)

(** The reader finds a written record's [relative_path] in its row. *)
Lemma written_row_path (r : ImageRecord.t) :
  csv.row_get
    (csv.row_dict (ImageRecord.get_required_columns ++ optional_columns)
       (csv.writerow (ImageRecord.get_required_columns ++ optional_columns)
                     (ImageRecord.asdict r)))
    "relative_path" ""
  = Some (ImageRecord.relative_path r).
Proof. reflexivity. Qed.

Lemma csv_paths_written (records : list ImageRecord.t) (p : string) :
  p ∈ csv_paths (write_csv records) ->
  exists r, r ∈ records /\ p = ImageRecord.relative_path r.
Proof.
  destruct records as [|r0 rs].
  - cbn. intros H. now apply elem_of_nil in H.
  - unfold csv_paths, csv.DictReader.
    rewrite write_csv_header_cons, write_csv_rows_cons.
    rewrite (filter_bool (fun r => negb (csv.is_blank r))).
    rewrite filter_map_all by (intros a; now rewrite writerow_not_blank).
    rewrite list_elem_of_omap. intros (row & Hrow & Hp).
    apply list_elem_of_In in Hrow.
    rewrite List.map_map in Hrow.
    apply in_map_iff in Hrow as (r & <- & Hr).
    rewrite written_row_path in Hp.
    exists r. split; [now apply list_elem_of_In|].
    destruct (String.eqb _ _); congruence.
Qed.

Lemma filter_none {A} (P : A -> Prop) `{forall x, Decision (P x)}
    (l : list A) :
  (forall x, x ∈ l -> ~ P x) -> filter P l = [].
Proof.
  induction l as [|a l IH]; intros Hnone; [reflexivity|].
  rewrite filter_cons_False by (apply Hnone; now left).
  apply IH. intros x Hx. apply Hnone. now right.
Qed.

(** *** The archive of a successful call *)


(** *** Path validation of successful bundles *)

(** The snapshot of the specification's scenario: one [txt2img] image
    [x.png]. *)
Definition image_x : Image.t :=
  {| Image.id := Some "a1";
     Image.filename := Some "x.png";
     Image.url := None;
     Image.prompt := Some "p";
     Image.negativePrompt := Some "n";
     Image.timestamp := Some "2024-01-01T00:00:00Z";
     Image.file_size := None;
     Image.settings := Some
       {| Settings.model_name := Some "m";
          Settings.sampler_name := Some "euler";
          Settings.steps := Some 20;
          Settings.cfg_scale := Some (PyFloat "7.0");
          Settings.width := Some 512;
          Settings.height := Some 512;
          Settings.seed := Some 1;
          Settings.denoising_strength := None;
          Settings.input_image := None;
          Settings.lora := None;
          Settings.controlnet := None |} |}.

Definition snapshot_x : gallery_file :=
  Object [("txt2img", [image_x]); ("img2img", [])].

Definition fresh : Store := store None ∅.


Lemma read_back_written (self : Env) (at_ : site) (t : tree)
    (rows : csv.file) :
  faults self at_ = None ->
  t !! "results.csv" = Some (CsvFile rows) ->
  read_back self at_ t = Returns rows.
Proof. unfold read_back. now intros -> ->. Qed.


(** The scenario with [x.png] in the served-images directory. *)
Definition env_x : Env :=
  sample_env snapshot_x (Some [("x.png", png 100 1704067200)]) no_faults.



(** The scenario of the specification, evaluated. *)
Example scenario_x :
  match create_report_bundle (Some "report.zip") env_x fresh with
  | (Returns (Success b), s') =>
      Bundle.total_images b = 1%nat /\
      Bundle.generation_types b = ["txt2img"] /\
      paths_valid (Bundle.path_validation b) = true /\
      temp_dir s' = None /\
      match reports_dir s' !! "report.zip" with
      | Some z =>
          is_Some (z !! "grids/txt2img/x.png") /\
          match z !! "results.csv" with
          | Some (CsvFile rows) => csv_paths rows = ["grids/txt2img/x.png"]
          | _ => False
          end
      | None => False
      end
  | _ => False
  end.
Proof. vm_compute. eauto 10. Qed.

(** *** A missing source image *)




End gallery_bundle_facts.

(** ** The registry-keyed bundle *)
Module registry_bundle_facts.
Import Py run_registry report_bundle registry_facts.

Abbreviation store c b z := {| cwd := c; bundle_dir := b; report_zip := z |}.

(** The runs a call bundles: those of the given ids that the registry
    holds, or all runs when no id is given. *)
Definition selected (self : Env) (run_ids : option (list string))
  : list RunConfig :=
  match run_ids with
  | Some ((_ :: _) as run_ids) =>
      omap (fun run_id => get_run (registry self) run_id) run_ids
  | Some [] | None => get_all_runs (registry self)
  end.

(** The [except] of the method: remove the bundle directory if it is there,
    then raise the exception again. *)
Definition cleanup_and_reraise (e : exn) : M string :=
  let! s := Run.get in
  do! match bundle_dir s with
      | Some _ => rmtree
      | None => Run.ret tt
      end in
  Run.raise e.

(** The part of the method that follows the selection of the runs. *)
Definition bundle_selected (runs : list RunConfig) : M string :=
  match runs with
  | [] => Run.raise (ValueError "No runs found to include in report")
  | _ =>
      do! makedirs MakeBundleDir in
      Run.try_except
        (ReportBundleGenerator.create_report_bundle_try runs)
        cleanup_and_reraise
  end.

Lemma create_report_bundle_selected (self : Env)
    (run_ids : option (list string)) (s : Store) :
  ReportBundleGenerator.create_report_bundle run_ids self s
  = bundle_selected (selected self run_ids) self s.
Proof. reflexivity. Qed.

Lemma get_runs_empty (reg : RunRegistry) (run_ids : list string) :
  runs reg = [] -> omap (fun run_id => get_run reg run_id) run_ids = [].
Proof.
  intros Hempty. induction run_ids as [|id ids IH]; [reflexivity|].
  cbn. now rewrite (get_run_empty _ id Hempty).
Qed.

Lemma selected_empty (self : Env) (run_ids : option (list string)) :
  runs (registry self) = [] -> selected self run_ids = [].
Proof.
  intros Hempty. unfold selected.
  destruct run_ids as [[|id ids]|].
  - now apply get_all_runs_empty.
  - now apply get_runs_empty.
  - now apply get_all_runs_empty.
Qed.

Lemma bundle_makedirs_run (self : Env) (at_ : site) (s : Store) :
  makedirs at_ self s
  = match faults self at_ with
    | Some e => (Raises e, s)
    | None =>
        (Returns tt, store (cwd s) (Some (default ∅ (bundle_dir s))) (report_zip s))
    end.
Proof.
  unfold makedirs, Run.bind, Run.ask, Run.may_raise.
  destruct (faults self at_); [reflexivity|].
  destruct s as [c [b|] z]; reflexivity.
Qed.

Lemma rmtree_run (self : Env) (s : Store) :
  rmtree self s
  = match faults self Cleanup with
    | Some e => (Raises e, s)
    | None => (Returns tt, store (cwd s) None (report_zip s))
    end.
Proof.
  unfold rmtree, Run.bind, Run.ask, Run.may_raise.
  now destruct (faults self Cleanup).
Qed.

Lemma handler_run (self : Env) (e : exn) (s : Store) :
  faults self Cleanup = None ->
  cleanup_and_reraise e self s
  = (Raises e, store (cwd s) None (report_zip s)).
Proof.
  intros Hclean. unfold cleanup_and_reraise, Run.bind, Run.get.
  destruct s as [c [b|] z]; cbn [bundle_dir]; [|reflexivity].
  rewrite rmtree_run, Hclean. reflexivity.
Qed.

(** Whatever the method raises, it raises with the bundle directory gone. *)
Lemma method_raises_clean (self : Env) (run_ids : option (list string))
    (s s' : Store) (e : exn) :
  faults self Cleanup = None ->
  bundle_dir s = None ->
  ReportBundleGenerator.create_report_bundle run_ids self s = (Raises e, s') ->
  bundle_dir s' = None.
Proof.
  intros Hclean Hnone. rewrite create_report_bundle_selected.
  unfold bundle_selected. destruct (selected self run_ids) as [|r rs].
  - intros H. injection H as _ <-. exact Hnone.
  - unfold Run.bind at 1. rewrite bundle_makedirs_run.
    destruct (faults self MakeBundleDir).
    + intros H. injection H as _ <-. exact Hnone.
    + unfold Run.try_except.
      destruct (ReportBundleGenerator.create_report_bundle_try _ _ _)
        as [[zip_path|e1] s1].
      * discriminate.
      * rewrite handler_run by exact Hclean.
        intros H. injection H as _ <-. reflexivity.
Qed.

(** The route turns what the method raises into an error response. *)
Lemma route_run (self : Env) (run_ids : option (list string)) (s : Store) :
  create_report_bundle run_ids self s
  = match ReportBundleGenerator.create_report_bundle
            (Some (default [] run_ids)) self s with
    | (Returns zip_path, s') =>
        (Returns {| status := "success";
                    message := "Report bundle created successfully";
                    file_path := Some zip_path;
                    http_status := 200 |}, s')
    | (Raises e, s') =>
        (Returns {| status := "error"; message := str_exn e;
                    file_path := None; http_status := 500 |}, s')
    end.
Proof.
  unfold create_report_bundle, Run.try_except, Run.bind.
  now destruct (ReportBundleGenerator.create_report_bundle _ _ _)
    as [[zip_path|e] s'].
Qed.

(** C6. With no run in the registry, the registry-keyed
    [create_report_bundle] ends in an error and not in a success: the
    method raises [ValueError: No runs found to include in report], which
    the route returns as a response with [status: error]; no archive is
    written and no staging directory is left, the store being as it was
    before the call. *)
Theorem empty_registry_no_bundle (self : Env)
    (run_ids : option (list string)) (s : Store) :
  runs (registry self) = [] ->
  ReportBundleGenerator.create_report_bundle run_ids self s
  = (Raises (ValueError "No runs found to include in report"), s) /\
  create_report_bundle run_ids self s
  = (Returns {| status := "error";
                message := "No runs found to include in report";
                file_path := None;
                http_status := 500 |}, s).
Proof.
  intros Hempty. split.
  - rewrite create_report_bundle_selected.
    now rewrite (selected_empty self run_ids Hempty).
  - rewrite route_run, create_report_bundle_selected.
    now rewrite (selected_empty self _ Hempty).
Qed.

Definition sample_env (runs : dict RunConfig) (files : gset string)
    (faults : site -> option exn) : Env :=
  {| registry := {| storage_file := "run_registry.json"; runs := runs |};
     output_files := files;
     now_iso := "2024-01-02T03:04:05";
     now_text := "2024-01-02 03:04:05";
     str_hash := fun s => Z.of_nat (String.length s);
     faults := faults |}.

Definition no_faults : site -> option exn := fun _ => None.

Definition fresh : Store := store ∅ None None.

Lemma empty_registry_no_bundle_witness :
  ReportBundleGenerator.create_report_bundle None
    (sample_env [] {["cat.png"]} no_faults) fresh
  = (Raises (ValueError "No runs found to include in report"), fresh) /\
  create_report_bundle (Some ["run-1"])
    (sample_env [] {["cat.png"]} no_faults) fresh
  = (Returns {| status := "error";
                message := "No runs found to include in report";
                file_path := None;
                http_status := 500 |}, fresh).
Proof.
  split.
  - apply (empty_registry_no_bundle (sample_env [] {["cat.png"]} no_faults)
             None fresh eq_refl).
  - apply (empty_registry_no_bundle (sample_env [] {["cat.png"]} no_faults)
             (Some ["run-1"]) fresh eq_refl).
Defined.

(** A registry with one run gives the archive with the four entries. *)
Example one_run_bundle :
  match ReportBundleGenerator.create_report_bundle None
          (sample_env [("run-1", sample_run)] {["cat.png"]} no_faults)
          fresh with
  | (Returns zip_path, s') =>
      zip_path = "report.zip" /\ bundle_dir s' = None /\ cwd s' = ∅ /\
      match report_zip s' with
      | Some z =>
          elements (dom z)
          ≡ₚ ["results.csv"; "config.json"; "README.md"; "images/cat.png"]
      | None => False
      end
  | _ => False
  end.
Proof.
  vm_compute. repeat split.
  apply NoDup_Permutation.
  - apply NoDup_ListNoDup. repeat constructor; cbn; intuition discriminate.
  - apply NoDup_ListNoDup. repeat constructor; cbn; intuition discriminate.
  - intros x. rewrite !list_elem_of_In. cbn. tauto.
Qed.

End registry_bundle_facts.

(** ** Failures: self-validation and exceptions, in both generators *)
Module failure_facts.
Import Py.

Module G := report_generator.
Module GF := gallery_bundle_facts.
Module B := report_bundle.
Module BF := registry_bundle_facts.

(** *** Exceptions raised by a step *)

(** A registry with one run and a disk that cannot take the CSV file. *)
Definition env_disk_full : B.Env :=
  BF.sample_env [("run-1", registry_facts.sample_run)] {["cat.png"]}
    (fun at_ => match at_ with
                | B.WriteCsv => Some (OSError "No space left on device")
                | _ => None
                end).

(** C2, as stated, fails for the registry-keyed generator: what
    [generate_csv] raises is raised again by the method once the bundle
    directory is removed, and reaches the caller. *)
Lemma registry_method_reraises :
  match B.ReportBundleGenerator.create_report_bundle None
          env_disk_full BF.fresh with
  | (Raises e, s') =>
      e = OSError "No space left on device" /\ B.bundle_dir s' = None
  | (Returns _, _) => False
  end.
Proof. vm_compute. auto. Qed.

(** C2, amended. In the gallery-keyed [create_report_bundle], once the
    staging directory is made and provided its removal does not itself
    fail, the call returns a result and raises nothing, the staging
    directory is gone when it returns, and an exception raised by the body
    of the [try] is returned as the error result with its message. In the
    registry-keyed generator an exception raised by a step is raised again
    by the method after the bundle directory is removed; it is the route
    that returns it as a response with [status: error]. *)
Theorem exceptions_in_steps :
  (forall (self : G.Env) (output_filename : option string) (s : G.Store),
     G.faults self G.MakeStaging = None ->
     G.faults self G.Cleanup = None ->
     exists r s',
       G.create_report_bundle output_filename self s = (Returns r, s') /\
       G.temp_dir s' = None /\
       forall e s1,
         G.create_report_bundle_try (GF.the_filename self output_filename) self
           {| G.temp_dir := Some (default ∅ (G.temp_dir s));
              G.reports_dir := G.reports_dir s |}
         = (Raises e, s1) ->
         r = G.Error (str_exn e)) /\
  (forall (self : B.Env) (run_ids : option (list string)) (s s1 : B.Store)
          (e : exn),
     B.faults self B.Cleanup = None ->
     B.bundle_dir s = None ->
     B.ReportBundleGenerator.create_report_bundle
       (Some (default [] run_ids)) self s = (Raises e, s1) ->
     B.bundle_dir s1 = None /\
     B.create_report_bundle run_ids self s
     = (Returns {| B.status := "error"; B.message := str_exn e;
                   B.file_path := None; B.http_status := 500 |}, s1)).
Proof.
  split.
  - intros self output_filename s Hstaging Hclean.
    rewrite GF.create_report_bundle_run, Hstaging.
    setoid_rewrite GF.create_report_bundle_try_run.
    destruct (GF.try_outcome _ _ _ _) as [o s1].
    rewrite Hclean. eexists _, _. split; [reflexivity|].
    split; [reflexivity|].
    intros e s2 H. now injection H as -> _.
  - intros self run_ids s s1 e Hclean Hnone Hraise. split.
    + eapply BF.method_raises_clean; eauto.
    + now rewrite BF.route_run, Hraise.
Qed.

(** The gallery scenario on a disk that cannot take the CSV file. *)
Definition env_csv_unwritable : G.Env :=
  data_source_facts.sample_env GF.snapshot_x
    (Some [("x.png", data_source_facts.png 100 1704067200)])
    (fun at_ => match at_ with
                | G.WriteCsv => Some (OSError "No space left on device")
                | _ => None
                end).

Lemma exceptions_in_steps_witness :
  (exists s',
     G.create_report_bundle None env_csv_unwritable GF.fresh
     = (Returns (G.Error "No space left on device"), s') /\
     G.temp_dir s' = None) /\
  (exists s1,
     B.bundle_dir s1 = None /\
     B.create_report_bundle None env_disk_full BF.fresh
     = (Returns {| B.status := "error";
                   B.message := "No space left on device";
                   B.file_path := None; B.http_status := 500 |}, s1)).
Proof.
  destruct exceptions_in_steps as [Hgallery Hregistry]. split.
  - destruct (Hgallery env_csv_unwritable None GF.fresh eq_refl eq_refl)
      as (r & s' & Hrun & Hgone & Herr).
    exists s'. split; [|exact Hgone].
    rewrite Hrun. f_equal. f_equal.
    apply (Herr (OSError "No space left on device")
                {| G.temp_dir := Some ∅; G.reports_dir := ∅ |}).
    vm_compute. reflexivity.
  - exists (snd (B.ReportBundleGenerator.create_report_bundle (Some [])
                   env_disk_full BF.fresh)).
    apply (Hregistry env_disk_full None BF.fresh _
             (OSError "No space left on device") eq_refl eq_refl).
    vm_compute. reflexivity.
Defined.

(** *** A failed self-validation *)







End failure_facts.

(** ** More on the run registry: lookups, persistence, listing *)
Module registry_store_facts.
Import Py run_registry.

(** *** Dictionaries *)

Definition keys {V} (d : dict V) : list string := map fst d.

Lemma dict_get_set_eq {V} (d : dict V) (k : string) (v : V) :
  dict_get (dict_set d k v) k = Some v.
Proof.
  induction d as [|[k' v'] d IH]; cbn.
  - now rewrite String.eqb_refl.
  - destruct (String.eqb k k') eqn:E; cbn; rewrite ?String.eqb_refl, ?E; auto.
Qed.

Lemma dict_get_set_ne {V} (d : dict V) (k k' : string) (v : V) :
  k <> k' -> dict_get (dict_set d k v) k' = dict_get d k'.
Proof.
  intros Hne. induction d as [|[k0 v0] d IH]; cbn.
  - apply String.eqb_neq in Hne. now rewrite String.eqb_sym, Hne.
  - destruct (String.eqb k k0) eqn:E; cbn.
    + apply String.eqb_eq in E. subst k0.
      apply String.eqb_neq in Hne. now rewrite String.eqb_sym, Hne.
    + now rewrite IH.
Qed.

Lemma dict_get_None_keys {V} (d : dict V) (k : string) :
  dict_get d k = None <-> k ∉ keys d.
Proof.
  induction d as [|[k' v'] d IH]; cbn.
  - split; [intros _; apply not_elem_of_nil | reflexivity].
  - rewrite not_elem_of_cons. destruct (String.eqb k k') eqn:E.
    + apply String.eqb_eq in E. split; [discriminate | intros [H _]; done].
    + apply String.eqb_neq in E. rewrite IH. tauto.
Qed.

Lemma keys_set {V} (d : dict V) (k : string) (v : V) :
  keys (dict_set d k v)
  = if dict_in d k then keys d else (keys d ++ [k])%list.
Proof.
  unfold dict_in, keys. induction d as [|[k' v'] d IH]; cbn; [reflexivity|].
  destruct (String.eqb k k') eqn:E; cbn.
  - apply String.eqb_eq in E. now subst.
  - rewrite IH. now destruct (dict_get d k).
Qed.

Lemma keys_set_NoDup {V} (d : dict V) (k : string) (v : V) :
  NoDup (keys d) -> NoDup (keys (dict_set d k v)).
Proof.
  intros Hnd. rewrite keys_set. unfold dict_in.
  destruct (dict_get d k) eqn:E; [exact Hnd|].
  apply NoDup_app. split; [exact Hnd|]. split; [|apply NoDup_singleton].
  intros x Hx Hk. apply list_elem_of_singleton in Hk. subst x.
  now apply dict_get_None_keys in E.
Qed.

Lemma keys_del {V} (d : dict V) (k x : string) :
  x ∈ keys (dict_del d k) -> x ∈ keys d.
Proof.
  induction d as [|[k' v'] d IH]; cbn; [done|].
  destruct (String.eqb k k'); cbn.
  - intros H. now right.
  - rewrite !elem_of_cons. intros [-> | H]; auto.
Qed.

Lemma keys_del_NoDup {V} (d : dict V) (k : string) :
  NoDup (keys d) -> NoDup (keys (dict_del d k)).
Proof.
  induction d as [|[k' v'] d IH]; cbn; [done|].
  rewrite NoDup_cons. intros [Hnot Hnd].
  destruct (String.eqb k k'); cbn; [exact Hnd|].
  apply NoDup_cons. split; [|now apply IH].
  intros Hin. apply Hnot. eapply keys_del, Hin.
Qed.

Lemma dict_get_del_eq {V} (d : dict V) (k : string) :
  NoDup (keys d) -> dict_get (dict_del d k) k = None.
Proof.
  induction d as [|[k' v'] d IH]; cbn; [done|].
  rewrite NoDup_cons. intros [Hnot Hnd].
  destruct (String.eqb k k') eqn:E; cbn.
  - apply String.eqb_eq in E. subst k'. now apply dict_get_None_keys.
  - rewrite E. now apply IH.
Qed.

Lemma dict_get_del_ne {V} (d : dict V) (k k' : string) :
  k <> k' -> dict_get (dict_del d k) k' = dict_get d k'.
Proof.
  intros Hne. induction d as [|[k0 v0] d IH]; cbn; [done|].
  destruct (String.eqb k k0) eqn:E; cbn.
  - apply String.eqb_eq in E. subst k0.
    apply String.eqb_neq in Hne. now rewrite String.eqb_sym, Hne.
  - now rewrite IH.
Qed.

Lemma dict_set_fresh {V} (d : dict V) (k : string) (v : V) :
  k ∉ keys d -> dict_set d k v = (d ++ [(k, v)])%list.
Proof.
  induction d as [|[k' v'] d IH]; cbn; [reflexivity|].
  rewrite not_elem_of_cons. intros [Hne Hnot].
  apply String.eqb_neq in Hne. rewrite Hne. now rewrite IH.
Qed.

(** Entering the items of a dictionary one by one rebuilds it. *)
Lemma dict_reload {V} (data acc : dict V) :
  NoDup (keys acc ++ keys data) ->
  fold_left (fun d item => dict_set d (fst item) (snd item)) data acc
  = (acc ++ data)%list.
Proof.
  revert acc. induction data as [|[k v] data IH]; intros acc Hnd; cbn.
  - now rewrite app_nil_r.
  - cbn in Hnd. rewrite dict_set_fresh.
    + rewrite IH; [now rewrite <- app_assoc|].
      unfold keys in *. rewrite map_app, <- app_assoc. exact Hnd.
    + apply NoDup_app in Hnd as (_ & Hdisj & _).
      intros Hin. apply (Hdisj k Hin). now left.
Qed.

(** *** The order on time stamps *)

Lemma compare_refl (s : string) : String.compare s s = Eq.
Proof.
  pose proof (String.compare_antisym s s) as H.
  destruct (String.compare s s); [reflexivity | discriminate | discriminate].
Qed.

Lemma ascii_compare_lt_trans (a b c : ascii) :
  Ascii.compare a b = Lt -> Ascii.compare b c = Lt -> Ascii.compare a c = Lt.
Proof.
  unfold Ascii.compare. rewrite !N.compare_lt_iff. apply N.lt_trans.
Qed.

Lemma compare_lt_trans (s1 s2 s3 : string) :
  String.compare s1 s2 = Lt -> String.compare s2 s3 = Lt ->
  String.compare s1 s3 = Lt.
Proof.
  revert s2 s3. induction s1 as [|a s1 IH]; intros [|b s2] [|c s3]; cbn;
    try congruence.
  destruct (Ascii.compare a b) eqn:Eab; try discriminate;
    destruct (Ascii.compare b c) eqn:Ebc; try discriminate; intros H12 H23.
  - apply Ascii.compare_eq_iff in Eab, Ebc. subst.
    rewrite (proj2 (N.compare_eq_iff _ _) eq_refl : Ascii.compare c c = Eq).
    eapply IH; eauto.
  - apply Ascii.compare_eq_iff in Eab. subst. now rewrite Ebc.
  - apply Ascii.compare_eq_iff in Ebc. subst. now rewrite Eab.
  - now rewrite (ascii_compare_lt_trans a b c Eab Ebc).
Qed.

Lemma ltb_irrefl (s : string) : String.ltb s s = false.
Proof. unfold String.ltb. now rewrite compare_refl. Qed.

Lemma ltb_asym (s1 s2 : string) :
  String.ltb s1 s2 = true -> String.ltb s2 s1 = false.
Proof.
  unfold String.ltb. rewrite (String.compare_antisym s2 s1).
  now destruct (String.compare s1 s2).
Qed.

(** Not below is transitive: the order is total. *)
Lemma not_ltb_trans (s1 s2 s3 : string) :
  String.ltb s1 s2 = false -> String.ltb s2 s3 = false ->
  String.ltb s1 s3 = false.
Proof.
  unfold String.ltb. intros H12 H23.
  destruct (String.compare s1 s3) eqn:E13; try reflexivity. exfalso.
  destruct (String.compare s1 s2) eqn:E12; try discriminate.
  - apply String.compare_eq_iff in E12. subst. now rewrite E13 in H23.
  - assert (E21 : String.compare s2 s1 = Lt).
    { rewrite String.compare_antisym, E12. reflexivity. }
    now rewrite (compare_lt_trans _ _ _ E21 E13) in H23.
Qed.

(** *** Sorting *)

Section sorting.
Context {A : Type} (key : A -> string).

(** [a] may stand before [b] in a list sorted newest first. *)
Definition not_older (a b : A) : Prop := String.ltb (key a) (key b) = false.

Lemma insert_desc_perm (x : A) (l : list A) :
  insert_desc key x l ≡ₚ x :: l.
Proof.
  induction l as [|y l IH]; cbn; [reflexivity|].
  destruct (String.ltb (key x) (key y)); [|reflexivity].
  rewrite IH. apply Permutation_swap.
Qed.

Lemma sorted_desc_perm (xs : list A) : sorted_desc key xs ≡ₚ xs.
Proof.
  induction xs as [|x xs IH]; cbn; [reflexivity|].
  now rewrite insert_desc_perm, IH.
Qed.

Lemma insert_desc_sorted (x : A) (l : list A) :
  StronglySorted not_older l -> StronglySorted not_older (insert_desc key x l).
Proof.
  induction l as [|y l IH]; intros Hs; cbn.
  - repeat constructor.
  - apply StronglySorted_inv in Hs as [Hl Hy].
    destruct (String.ltb (key x) (key y)) eqn:E.
    + constructor; [now apply IH|].
      apply Forall_forall. intros z Hz.
      apply elem_of_Permutation_proper with (y := x :: l) in Hz;
        [|apply insert_desc_perm].
      apply elem_of_cons in Hz as [-> | Hz].
      * now apply ltb_asym.
      * rewrite Forall_forall in Hy. now apply Hy.
    + constructor; [now constructor|].
      constructor; [exact E|].
      rewrite Forall_forall in Hy |- *. intros z Hz.
      eapply not_ltb_trans; [exact E | now apply Hy].
Qed.

Lemma sorted_desc_sorted (xs : list A) :
  StronglySorted not_older (sorted_desc key xs).
Proof.
  induction xs as [|x xs IH]; cbn; [constructor|].
  now apply insert_desc_sorted.
Qed.

Definition with_key (k : string) (l : list A) : list A :=
  List.filter (fun a => String.eqb (key a) k) l.

Lemma insert_desc_with_key (k : string) (x : A) (l : list A) :
  with_key k (insert_desc key x l) = with_key k (x :: l).
Proof.
  induction l as [|y l IH]; [reflexivity|].
  cbn [insert_desc]. destruct (String.ltb (key x) (key y)) eqn:E;
    [|reflexivity].
  unfold with_key in *. cbn [List.filter] in *. rewrite IH.
  destruct (String.eqb (key x) k) eqn:Ex; [|reflexivity].
  destruct (String.eqb (key y) k) eqn:Ey; [|reflexivity].
  apply String.eqb_eq in Ex, Ey. rewrite Ex, Ey, ltb_irrefl in E.
  discriminate E.
Qed.

Lemma sorted_desc_with_key (k : string) (xs : list A) :
  with_key k (sorted_desc key xs) = with_key k xs.
Proof.
  induction xs as [|x xs IH]; [reflexivity|].
  cbn [sorted_desc foldr]. rewrite insert_desc_with_key.
  unfold with_key in *. cbn [List.filter]. fold (sorted_desc key xs).
  now rewrite IH.
Qed.

End sorting.

(** *** [add_run], [get_run], [delete_run] *)

(** X1. A run that has just been added is found under its id, with the
    configuration given, whether the id was new or not; every other id
    gives what it gave before. *)
Theorem add_run_then_get_run (self : RunRegistry) (config : RunConfig)
    (fs : Disk) (id : string) :
  get_run (fst (add_run self config fs)) (run_id config) = Some config /\
  (id <> run_id config ->
   get_run (fst (add_run self config fs)) id = get_run self id).
Proof.
  unfold get_run, add_run. cbn [fst runs]. split.
  - apply dict_get_set_eq.
  - intros Hne. apply dict_get_set_ne. congruence.
Qed.

Lemma dict_set_length {V} (d : dict V) (k : string) (v : V) :
  length (dict_set d k v)
  = if dict_in d k then length d else S (length d).
Proof.
  unfold dict_in. induction d as [|[k' v'] d IH]; cbn; [reflexivity|].
  destruct (String.eqb k k'); cbn; [reflexivity|].
  rewrite IH. now destruct (dict_get d k).
Qed.

(** X2. [add_run] overwrites: with an id the registry holds, the number of
    runs and the order of the ids stay as they are; with a new id, the id
    goes last and there is one run more. Ids stay unique. *)
Theorem add_run_overwrites (self : RunRegistry) (config : RunConfig)
    (fs : Disk) :
  NoDup (keys (runs self)) ->
  let self' := fst (add_run self config fs) in
  NoDup (keys (runs self')) /\
  match get_run self (run_id config) with
  | Some _ =>
      keys (runs self') = keys (runs self) /\
      length (runs self') = length (runs self)
  | None =>
      keys (runs self') = (keys (runs self) ++ [run_id config])%list /\
      length (runs self') = S (length (runs self))
  end.
Proof.
  intros Hnd self'. subst self'. unfold add_run, get_run. cbn [fst runs].
  split; [now apply keys_set_NoDup|].
  rewrite keys_set, dict_set_length. unfold dict_in.
  now destruct (dict_get (runs self) (run_id config)).
Qed.

Definition other_run : RunConfig :=
  {| run_id := "run-2"; timestamp := "2024-01-02T00:00:00";
     model := "sdxl.safetensors"; vae := Some "vae.safetensors";
     loras := [Blob true "{}"]; controlnets := [];
     prompt := "a dog"; negative_prompt := "blurry"; seed := 7;
     sampler := "dpm++"; steps := 30; cfg_scale := PyFloat "8.5";
     width := 768; height := 768; batch_size := 2; batch_count := 3;
     workflow := Blob true "{}"; version := "1.0.0";
     generated_images := ["dog.png"; ""]; generation_type := "img2img" |}.

Lemma add_run_overwrites_witness :
  keys (runs (fst (add_run registry_facts.sample_registry other_run
                           registry_facts.sample_disk)))
  = ["run-1"; "run-2"] /\
  length (runs (fst (add_run registry_facts.sample_registry other_run
                             registry_facts.sample_disk))) = 2%nat.
Proof.
  apply (add_run_overwrites registry_facts.sample_registry other_run
           registry_facts.sample_disk).
  repeat constructor. apply not_elem_of_nil.
Defined.

Lemma dict_del_length {V} (d : dict V) (k : string) :
  dict_in d k = true -> S (length (dict_del d k)) = length d.
Proof.
  unfold dict_in. induction d as [|[k' v'] d IH]; cbn; [discriminate|].
  destruct (String.eqb k k'); cbn; [reflexivity|].
  intros H. now rewrite IH.
Qed.

(** X3. Deleting a run the registry holds returns [True]; the id is no
    longer found, every other id gives what it gave before, there is one
    run fewer, and ids stay unique. *)
Theorem delete_run_removes (self : RunRegistry) (id : string) (fs : Disk)
    (config : RunConfig) :
  NoDup (keys (runs self)) ->
  get_run self id = Some config ->
  let '(ok, self', _) := delete_run self id fs in
  ok = true /\
  get_run self' id = None /\
  (forall id', id' <> id -> get_run self' id' = get_run self id') /\
  S (length (runs self')) = length (runs self) /\
  NoDup (keys (runs self')).
Proof.
  intros Hnd Hget. unfold delete_run, get_run in *.
  assert (Hin : dict_in (runs self) id = true)
    by (unfold dict_in; now rewrite Hget).
  rewrite Hin. cbn [runs]. split; [reflexivity|].
  split; [now apply dict_get_del_eq|].
  split; [intros id' Hne; apply dict_get_del_ne; congruence|].
  split; [now apply dict_del_length | now apply keys_del_NoDup].
Qed.

Lemma delete_run_removes_witness :
  let '(ok, self', _) :=
    delete_run registry_facts.sample_registry "run-1"
               registry_facts.sample_disk in
  ok = true /\ get_run self' "run-1" = None.
Proof.
  pose proof (delete_run_removes registry_facts.sample_registry "run-1"
                registry_facts.sample_disk registry_facts.sample_run) as H.
  destruct (delete_run registry_facts.sample_registry "run-1"
              registry_facts.sample_disk) as [[ok self'] fs'].
  destruct H as (Hok & Hgone & _).
  - repeat constructor. apply not_elem_of_nil.
  - reflexivity.
  - split; [exact Hok | exact Hgone].
Defined.

(** *** Persistence *)

Lemma save_runs_writable (self : RunRegistry) (fs : Disk) :
  storage_file self ∉ unwritable fs ->
  contents (save_runs self fs) !! storage_file self = Some (runs self) /\
  (forall path, path <> storage_file self ->
                contents (save_runs self fs) !! path = contents fs !! path) /\
  unwritable (save_runs self fs) = unwritable fs.
Proof.
  intros Hw. unfold save_runs. rewrite bool_decide_eq_false_2 by exact Hw.
  cbn [contents unwritable]. split; [apply lookup_insert_eq|].
  split; [|reflexivity]. intros path Hne. now apply lookup_insert_ne.
Qed.

(** X4. With a storage file that can be written, the file holds exactly the
    runs in memory after [add_run] and after a [delete_run] that returns
    [True], and no other file is touched. *)
Theorem storage_follows_memory (self : RunRegistry) (fs : Disk) :
  storage_file self ∉ unwritable fs ->
  (forall config,
     let '(self', fs') := add_run self config fs in
     contents fs' !! storage_file self' = Some (runs self') /\
     forall path, path <> storage_file self ->
                  contents fs' !! path = contents fs !! path) /\
  (forall id,
     let '(ok, self', fs') := delete_run self id fs in
     ok = true ->
     contents fs' !! storage_file self' = Some (runs self') /\
     forall path, path <> storage_file self ->
                  contents fs' !! path = contents fs !! path).
Proof.
  intros Hw. split.
  - intros config. unfold add_run.
    set (self' := {| storage_file := storage_file self;
                     runs := dict_set (runs self) (run_id config) config |}).
    destruct (save_runs_writable self' fs Hw) as (Hfile & Hother & _).
    split; [exact Hfile | exact Hother].
  - intros id. unfold delete_run. destruct (dict_in (runs self) id).
    + intros _.
      set (self' := {| storage_file := storage_file self;
                       runs := dict_del (runs self) id |}).
      destruct (save_runs_writable self' fs Hw) as (Hfile & Hother & _).
      split; [exact Hfile | exact Hother].
    + discriminate.
Qed.

Lemma storage_follows_memory_witness :
  contents (snd (add_run registry_facts.sample_registry other_run
                         registry_facts.sample_disk))
  !! "run_registry.json"
  = Some [("run-1", registry_facts.sample_run); ("run-2", other_run)].
Proof.
  assert (Hw : storage_file registry_facts.sample_registry
               ∉ unwritable registry_facts.sample_disk)
    by apply not_elem_of_empty.
  destruct (storage_follows_memory registry_facts.sample_registry
              registry_facts.sample_disk Hw) as [Hadd _].
  specialize (Hadd other_run).
  destruct (add_run registry_facts.sample_registry other_run
              registry_facts.sample_disk) as [self' fs'] eqn:E.
  assert (Hself : self' = fst (add_run registry_facts.sample_registry
                                 other_run registry_facts.sample_disk))
    by now rewrite E.
  destruct Hadd as [Hfile _]. cbn [snd]. rewrite Hself in Hfile.
  exact Hfile.
Defined.




(** X6. What [save_runs] writes, a new registry on the same file reads
    back: the same runs under the same ids in the same order. A registry
    on a file that is not there starts empty. *)
Theorem save_then_load (self : RunRegistry) (fs : Disk) :
  NoDup (keys (runs self)) ->
  storage_file self ∉ unwritable fs ->
  new_registry (storage_file self) (save_runs self fs) = self /\
  (forall path, contents fs !! path = None ->
                runs (new_registry path fs) = []).
Proof.
  intros Hnd Hw. split.
  - unfold new_registry, load_runs. cbn [storage_file runs].
    pose proof (proj1 (save_runs_writable self fs Hw)) as Hfile.
    unfold dict in *. rewrite Hfile.
    destruct self as [file entries]. cbn [storage_file runs] in *.
    f_equal. exact (dict_reload entries [] Hnd).
  - intros path Hnone. unfold new_registry, load_runs. cbn [storage_file].
    unfold dict in *. now rewrite Hnone.
Qed.

Lemma save_then_load_witness :
  new_registry "run_registry.json"
    (save_runs registry_facts.sample_registry registry_facts.sample_disk)
  = registry_facts.sample_registry.
Proof.
  apply (save_then_load registry_facts.sample_registry
           registry_facts.sample_disk).
  - repeat constructor. apply not_elem_of_nil.
  - apply not_elem_of_empty.
Defined.

(** *** [get_all_runs] *)

(** X7. [get_all_runs] returns every run of the registry once, none added
    and none lost, newest time stamp first: no run stands before one with a
    later time stamp. *)
Theorem get_all_runs_newest_first (self : RunRegistry) :
  get_all_runs self ≡ₚ dict_values (runs self) /\
  StronglySorted (not_older timestamp) (get_all_runs self).
Proof.
  unfold get_all_runs. split;
    [apply sorted_desc_perm | apply sorted_desc_sorted].
Qed.

(** X8. Runs with the same time stamp come out of [get_all_runs] in the
    order they were entered in the registry. *)
Theorem get_all_runs_keeps_ties (self : RunRegistry) (ts : string) :
  with_key timestamp ts (get_all_runs self)
  = with_key timestamp ts (dict_values (runs self)).
Proof. unfold get_all_runs. apply sorted_desc_with_key. Qed.

(** Two runs, the older entered first: the newer is listed first. *)
Example get_all_runs_two :
  get_all_runs (fst (add_run registry_facts.sample_registry other_run
                             registry_facts.sample_disk))
  = [other_run; registry_facts.sample_run].
Proof. reflexivity. Qed.

End registry_store_facts.

(** ** More on the gallery generator: records, CSV, copying, path check *)
Module gallery_parts_facts.
Import Py report_generator schema_facts write_csv_facts data_source_facts.
Import gallery_bundle_facts.

(** *** [create_csv_records] *)

Definition image_count (g : gallery_data) : nat :=
  list_sum (map (fun item => length (snd item)) g).

Lemma create_csv_records_length (self : Env) (g : gallery_data) :
  length (create_csv_records self g) = image_count g.
Proof.
  unfold create_csv_records, image_count.
  induction g as [|[gt images] g IH]; [reflexivity|].
  cbn [flat_map map list_sum fst snd].
  now rewrite length_app, length_imap, IH.
Qed.

(** X9. [create_csv_records] gives one record for each image of the gallery
    data; a record carries the key its image was listed under as
    [generation_type] and the image's place in that list as [batch_index],
    and its [relative_path] is [grids/<generation_type>/<filename>]. *)
Theorem create_csv_records_shape (self : Env) (g : gallery_data) :
  length (create_csv_records self g) = image_count g /\
  forall r, r ∈ create_csv_records self g ->
    ImageRecord.relative_path r
    = "grids/" +:+ ImageRecord.generation_type r +:+ "/" +:+
      ImageRecord.filename r /\
    exists images image,
      (ImageRecord.generation_type r, images) ∈ g /\
      images !! ImageRecord.batch_index r = Some image /\
      r = create_record self (ImageRecord.generation_type r)
                        (ImageRecord.batch_index r) image.
Proof.
  split; [apply create_csv_records_length|].
  intros r. unfold create_csv_records. rewrite list_elem_of_In, in_flat_map.
  intros ([gt images] & Hitem & Hin). cbn [fst snd] in Hin.
  apply list_elem_of_In, elem_of_lookup_imap in Hin as (i & image & -> & Hi).
  split; [reflexivity|].
  exists images, image. cbn. split; [now apply list_elem_of_In|].
  split; [exact Hi | reflexivity].
Qed.

(** *** The file name taken from a URL *)







(** An image with neither key is named after its place in the list, and
    the defaults fill what the settings lack. *)
Example record_defaults :
  let r := create_record env_x "extras" 2
             {| Image.id := None; Image.filename := None; Image.url := None;
                Image.prompt := None; Image.negativePrompt := None;
                Image.timestamp := None; Image.file_size := None;
                Image.settings := None |} in
  ImageRecord.filename r = "image_2.png" /\
  ImageRecord.id r = "extras_2" /\
  ImageRecord.relative_path r = "grids/extras/image_2.png" /\
  ImageRecord.seed r = -1 /\ ImageRecord.steps r = 20 /\
  ImageRecord.timestamp r = "2024-01-02T03:04:05".
Proof. vm_compute. repeat split. Qed.

(** *** Reading back what [write_csv] wrote *)




(** *** The validator on a written file *)

Lemma elements_empty_size (X : gset string) :
  size X = 0%nat -> elements X = [].
Proof. intros H. now apply nil_length_inv. Qed.



(** *** What [copy_images_to_bundle] accounts for *)





(** *** [_validate_csv_paths_in_zip] *)

Lemma filter_split_length {A} (P : A -> Prop) `{forall x, Decision (P x)}
    (l : list A) :
  (length (filter P l) + length (filter (fun x => ~ P x) l))%nat = length l.
Proof.
  induction l as [|a l IH]; [reflexivity|].
  destruct (decide (P a)) as [Ha | Ha].
  - rewrite (filter_cons_True P) by exact Ha.
    rewrite (filter_cons_False (fun x => ~ P x)) by tauto. cbn. lia.
  - rewrite (filter_cons_False P) by exact Ha.
    rewrite (filter_cons_True (fun x => ~ P x)) by exact Ha.
    cbn. lia.
Qed.

(** X14. When the archive and the CSV file can both be opened, the path
    check counts every non-empty [relative_path] of the file once, as valid
    or as missing; [missing_paths] has exactly the paths that name no entry
    of the archive; and the result is valid exactly when every path names an
    entry. An archive that cannot be opened gives an invalid result with the
    error's message, whatever the CSV file. *)
Theorem path_check_report (z : tree) (f : csv.file) :
  (exists valid total valid_paths missing_paths,
     _validate_csv_paths_in_zip (Returns z) (Returns f)
     = PathsChecked valid total valid_paths missing_paths valid /\
     total = length (csv_paths f) /\
     (valid_paths + length missing_paths)%nat = total /\
     (forall p, p ∈ missing_paths <-> p ∈ csv_paths f /\ z !! p = None) /\
     (valid = true <-> forall p, p ∈ csv_paths f -> is_Some (z !! p))) /\
  (forall e opened,
     _validate_csv_paths_in_zip (Raises e) opened = PathsFailed (str_exn e) /\
     paths_valid (_validate_csv_paths_in_zip (Raises e) opened) = false).
Proof.
  split; [|intros e opened; split; reflexivity].
  cbn [_validate_csv_paths_in_zip].
  eexists _, _, _, _. split; [reflexivity|].
  split; [reflexivity|].
  split; [apply (filter_split_length (fun p => p ∈ dom z))|].
  split.
  - intros p. rewrite list_elem_of_filter, not_elem_of_dom. tauto.
  - rewrite Nat.eqb_eq, length_zero_iff_nil. split.
    + intros Hnil p Hp. apply elem_of_dom.
      destruct (decide (p ∈ dom z)) as [Hin | Hnot]; [exact Hin|].
      assert (Hm : p ∈ filter (fun path => path ∉ dom z) (csv_paths f))
        by now apply list_elem_of_filter.
      rewrite Hnil in Hm. now apply elem_of_nil in Hm.
    + intros Hall. apply filter_none.
      intros p Hp Hnot. apply Hnot, elem_of_dom. now apply Hall.
Qed.

(** *** A CSV file with no [relative_path] column *)

Lemma fold_set_get {V} (f : string -> V) (ks : list string) (d : dict V)
    (k : string) :
  k ∉ ks ->
  dict_get (fold_left (fun d k' => dict_set d k' (f k')) ks d) k
  = dict_get d k.
Proof.
  revert d. induction ks as [|k0 ks IH]; intros d Hk; [reflexivity|].
  apply not_elem_of_cons in Hk as [Hne Hk].
  cbn [fold_left]. rewrite IH by exact Hk.
  apply registry_store_facts.dict_get_set_ne. congruence.
Qed.

Lemma fold_zip_get (kvs : list (string * string)) (d : dict (option string))
    (k : string) :
  k ∉ map fst kvs ->
  dict_get (fold_left (fun d kv => dict_set d (fst kv) (Some (snd kv))) kvs d) k
  = dict_get d k.
Proof.
  revert d. induction kvs as [|[k0 v0] kvs IH]; intros d Hk; [reflexivity|].
  cbn [map fst] in Hk. apply not_elem_of_cons in Hk as [Hne Hk].
  cbn [fold_left]. rewrite IH by exact Hk.
  apply registry_store_facts.dict_get_set_ne. cbn. congruence.
Qed.

Lemma row_dict_no_column (names row : list string) (k : string) :
  k ∉ names -> dict_get (csv.row_dict names row) k = None.
Proof.
  intros Hk. unfold csv.row_dict.
  rewrite (fold_set_get (fun _ => None)).
  - rewrite fold_zip_get; [reflexivity|].
    intros Hin. apply Hk.
    apply list_elem_of_fmap in Hin as ([k0 v0] & -> & Hin).
    apply list_elem_of_In, in_combine_l, list_elem_of_In in Hin.
    exact Hin.
  - intros Hin. apply Hk.
    rewrite <- (take_drop (length row) names), elem_of_app. now right.
Qed.

(** X15. A CSV file whose header has no [relative_path] column passes the
    path check with no path counted, whatever its rows and whatever the
    archive holds. *)
Theorem no_path_column_passes (z : tree) (f : csv.file) :
  "relative_path" ∉ csv.fieldnames f ->
  _validate_csv_paths_in_zip (Returns z) (Returns f)
  = PathsChecked true 0 0 [] true.
Proof.
  intros Hk.
  assert (Hnone : csv_paths f = []).
  { unfold csv_paths, csv.DictReader.
    induction (filter (fun r => negb (csv.is_blank r)) (tail f))
      as [|row rows IH]; [reflexivity|].
    cbn [map].
    change (omap ?g (?x :: ?l))
      with (match g x with Some y => y :: omap g l | None => omap g l end).
    unfold csv.row_get at 1.
    rewrite row_dict_no_column by exact Hk. exact IH. }
  cbn [_validate_csv_paths_in_zip]. rewrite Hnone. reflexivity.
Qed.

Lemma no_path_column_passes_witness :
  ("relative_path" ∉ csv.fieldnames [["id"; "prompt"]; ["a1"; "a cat"]]) /\
  _validate_csv_paths_in_zip (Returns ∅)
    (Returns [["id"; "prompt"]; ["a1"; "a cat"]])
  = PathsChecked true 0 0 [] true.
Proof.
  assert (H : "relative_path" ∉ csv.fieldnames [["id"; "prompt"]; ["a1"; "a cat"]]).
  { cbn. rewrite list_elem_of_In. cbn. intuition discriminate. }
  split; [exact H | exact (no_path_column_passes ∅ _ H)].
Defined.

(** *** What a call does to the reports directory *)

(** The body of the [try] writes at most the archive [name], and what it
    returns and stages does not depend on the archives already there. *)
Lemma try_outcome_shape (self : Env) (name : string) (t : tree) :
  exists (o : outcome result) (t' : tree) (oz : option tree),
    (forall rd, try_outcome self name t rd
                = (o, store (Some t')
                            match oz with
                            | Some z => <[name := z]> rd
                            | None => rd
                            end)) /\
    (forall b, o = Returns (Success b) ->
       is_Some oz /\ Bundle.report_filename b = name /\
       Bundle.report_path b = reports_path self +:+ "/" +:+ name).
Proof.
  unfold try_outcome.
  repeat match goal with
         | |- context [match faults self ?x with _ => _ end] =>
             destruct (faults self x)
         | |- context [match get_settings self with _ => _ end] =>
             destruct (get_settings self)
         | |- context [copy_all ?a ?b ?c ?d ?e] =>
             destruct (copy_all a b c d e) as [[? ?] ?]
         end;
    first [ eexists _, _, None;
            split; [intros rd; reflexivity | intros b Hb; discriminate Hb]
          | eexists _, _, (Some _);
            split; [intros rd; reflexivity|];
            intros b Hb; injection Hb as <-; cbn; eauto ].
Qed.


(** X17. What a call returns does not depend on the archives the reports
    directory holds: from two stores without staging directory the results
    are the same, and after a success the archive under the name is the
    same too, so that an archive already there under that name is
    replaced. *)
Theorem existing_archive_replaced (self : Env)
    (output_filename : option string) (rd1 rd2 : gmap string tree) :
  let name := match output_filename with
              | None => "dreamlayer_report_" +:+ now_stamp self +:+ ".zip"
              | Some name => name
              end in
  let '(o1, s1) := create_report_bundle output_filename self (store None rd1) in
  let '(o2, s2) := create_report_bundle output_filename self (store None rd2) in
  o1 = o2 /\
  (forall b, o1 = Returns (Success b) ->
     reports_dir s1 !! name = reports_dir s2 !! name /\
     is_Some (reports_dir s1 !! name)).
Proof.
  intros name. fold (the_filename self output_filename) in name.
  rewrite !create_report_bundle_run. cbn [temp_dir reports_dir default].
  destruct (faults self MakeStaging) as [e|].
  { split; [reflexivity|]. intros ? H; discriminate H. }
  destruct (try_outcome_shape self name ∅)
    as (o & t' & oz & Hshape & Hsuccess).
  subst name. rewrite (Hshape rd1), (Hshape rd2).
  destruct (faults self Cleanup) as [e|]; cbn [reports_dir].
  { split; [reflexivity|]. intros ? H; discriminate H. }
  split; [reflexivity|].
  intros b Hb. destruct o as [r|e]; [|discriminate Hb].
  injection Hb as ->.
  destruct (Hsuccess b eq_refl) as ([z ->] & _).
  rewrite !lookup_insert_eq. eauto.
Qed.

(** *** The directory scan, bundled *)

Lemma fetch_scan_lists (self : Env) (listing : list (string * DirEntry)) :
  no_usable_snapshot (gallery self) ->
  served_images self = Some listing ->
  fetch_gallery_data self
  = [ ("txt2img", placeholders "txt2img" listing);
      ("img2img", placeholders "img2img" listing);
      ("extras", placeholders "extras" listing) ].
Proof.
  intros Hsnap Hserved.
  assert (Hscan : fetch_gallery_data self = _scan_served_images self).
  { unfold fetch_gallery_data. destruct (gallery self); try reflexivity.
    destruct Hsnap as (-> & -> & ->). reflexivity. }
  rewrite Hscan. unfold _scan_served_images. rewrite Hserved.
  now rewrite scan_entries.
Qed.

Lemma classify_cases (filename : string) :
  classify filename = "txt2img" \/ classify filename = "img2img" \/
  classify filename = "extras".
Proof.
  unfold classify.
  destruct (any_keyword _ ["img2img"; "controlnet"]); [auto|].
  destruct (any_keyword _ _); auto.
Qed.

(** Each image file of the listing has its placeholder under one label. *)
Lemma placeholders_count (listing : list (string * DirEntry)) :
  (length (placeholders "txt2img" listing)
   + (length (placeholders "img2img" listing)
      + (length (placeholders "extras" listing) + 0)))%nat
  = length (List.filter is_image_file listing).
Proof.
  unfold placeholders. rewrite !length_map.
  induction listing as [|[filename stat] listing IH]; [reflexivity|].
  cbn [List.filter fst].
  destruct (is_image_file (filename, stat)); cbn [andb]; [|exact IH].
  destruct (classify_cases filename) as [-> | [-> | ->]];
    cbn [String.eqb Ascii.eqb Bool.eqb andb length]; lia.
Qed.

Lemma dict_get_NoDup {V} (d : dict V) (k : string) (v : V) :
  NoDup (map fst d) -> (k, v) ∈ d -> dict_get d k = Some v.
Proof.
  induction d as [|[k' v'] d IH]; intros Hnd Hin.
  - now apply elem_of_nil in Hin.
  - cbn [map fst] in Hnd. apply NoDup_cons in Hnd as [Hfresh Hnd].
    cbn [dict_get]. apply elem_of_cons in Hin as [Heq | Hin].
    + injection Heq as -> ->. now rewrite String.eqb_refl.
    + destruct (String.eqb k k') eqn:E; [|now apply IH].
      apply String.eqb_eq in E. subst k'. exfalso. apply Hfresh.
      apply list_elem_of_fmap. now exists (k, v).
Qed.

(** A record made from the scan names a regular file of the listing. *)
Lemma scanned_record_source (self : Env) (listing : list (string * DirEntry))
    (r : ImageRecord.t) :
  NoDup (map fst listing) ->
  served_images self = Some listing ->
  r ∈ create_csv_records self
        [ ("txt2img", placeholders "txt2img" listing);
          ("img2img", placeholders "img2img" listing);
          ("extras", placeholders "extras" listing) ] ->
  exists stat,
    served_lookup self (ImageRecord.filename r) = Some stat /\
    is_file stat = true.
Proof.
  intros Hnd Hserved Hr.
  assert (Hplace : exists label i image,
            image ∈ placeholders label listing /\
            r = create_record self label i image).
  { unfold create_csv_records in Hr.
    apply list_elem_of_In, in_flat_map in Hr as ([label images] & Hitem & Hin).
    cbn [fst snd] in Hin.
    apply list_elem_of_In, elem_of_lookup_imap in Hin as (i & image & -> & Hi).
    exists label, i, image. split; [|reflexivity].
    apply list_elem_of_lookup_2 in Hi.
    cbn in Hitem. destruct Hitem as [H | [H | [H | []]]];
      injection H as <- <-; exact Hi. }
  destruct Hplace as (label & i & image & Himage & ->).
  unfold placeholders in Himage.
  apply list_elem_of_In, in_map_iff in Himage as ([filename stat] & <- & Hin).
  apply filter_In in Hin as [Hin Hkeep].
  apply andb_true_iff in Hkeep as [Himg _].
  apply andb_true_iff in Himg as [_ Hfile]. cbn [fst snd] in *.
  exists stat. split; [|exact Hfile].
  unfold served_lookup. rewrite Hserved. cbn [create_record image_record
    ImageRecord.filename Image.filename].
  apply dict_get_NoDup; [exact Hnd | now apply list_elem_of_In].
Qed.

(** When every record's source can be copied, all are. *)
Lemma copy_all_all_copied (self : Env) (records : list ImageRecord.t)
    (t : tree) (copied missing : list string) :
  (forall r, r ∈ records ->
     exists stat,
       served_lookup self (ImageRecord.filename r) = Some stat /\
       is_file stat = true /\
       faults self (Copy (ImageRecord.filename r)) = None) ->
  snd (copy_all self records t copied missing) = missing /\
  snd (fst (copy_all self records t copied missing))
  = (copied ++ map ImageRecord.relative_path records)%list.
Proof.
  revert t copied missing.
  induction records as [|r rs IH]; intros t copied missing Hall.
  - cbn. now rewrite app_nil_r.
  - destruct (Hall r) as (stat & Hlookup & Hfile & Hcopy); [now left|].
    cbn [copy_all]. rewrite Hlookup, Hcopy, Hfile.
    destruct (IH (<[ImageRecord.relative_path r := ImageFile stat]> t)
                 (copied ++ [ImageRecord.relative_path r])%list missing)
      as [Hm Hc].
    { intros r' Hr'. apply Hall. now right. }
    split; [exact Hm|]. rewrite Hc, <- app_assoc. reflexivity.
Qed.

(** X18. With no usable snapshot, a served-images directory whose listing
    names each file once, and no step, copy or read-back raising, the call
    bundles exactly the image files of the directory: it returns
    [status: success], [total_images] and [copied_files] are the number of
    regular files with an image extension, [missing_files] is empty, and the
    path check is valid. *)
Theorem scanned_directory_bundled (self : Env)
    (output_filename : option string) (s : Store)
    (listing : list (string * DirEntry)) :
  no_usable_snapshot (gallery self) ->
  served_images self = Some listing ->
  NoDup (map fst listing) ->
  no_step_raises self ->
  (forall name, faults self (Copy name) = None) ->
  faults self ReadZip = None ->
  faults self ReadCsvPaths = None ->
  exists b s',
    create_report_bundle output_filename self s = (Returns (Success b), s') /\
    Bundle.total_images b = length (List.filter is_image_file listing) /\
    Bundle.copied_files b = Bundle.total_images b /\
    Bundle.missing_files b = [] /\
    paths_valid (Bundle.path_validation b) = true.
Proof.
  intros Hsnap Hserved Hnd Hok Hcopyok Hzip Hcsv.
  destruct (success_run self output_filename s Hok) as (b & s' & Hrun).
  exists b, s'. split; [exact Hrun|].
  destruct (success_inv _ _ _ _ _ Hrun)
    as (settings & t3 & copied & missing & _ & Hcopy & Hb & _).
  assert (Hrecords : the_records self
            = create_csv_records self
                [ ("txt2img", placeholders "txt2img" listing);
                  ("img2img", placeholders "img2img" listing);
                  ("extras", placeholders "extras" listing) ]).
  { unfold the_records. now rewrite (fetch_scan_lists self listing). }
  destruct (copy_all_all_copied self (the_records self)
              (staged self settings (default ∅ (temp_dir s))) [] [])
    as [Hmissing Hcopied].
  { intros r Hr. rewrite Hrecords in Hr.
    destruct (scanned_record_source self listing r Hnd Hserved Hr)
      as (stat & Hlookup & Hfile).
    exists stat. auto. }
  rewrite Hcopy in Hmissing, Hcopied. cbn [fst snd] in Hmissing, Hcopied.
  subst missing.
  assert (Htotal : length (the_records self)
                   = length (List.filter is_image_file listing)).
  { rewrite Hrecords, create_csv_records_length. unfold image_count.
    cbn [map list_sum snd]. apply placeholders_count. }
  rewrite Hb. cbn [the_bundle Bundle.total_images Bundle.copied_files
    Bundle.missing_files Bundle.path_validation].
  split; [exact Htotal|].
  split; [rewrite Hcopied; cbn; now rewrite length_map|].
  split; [reflexivity|].
  assert (Hresults : zipped_tree self t3 !! "results.csv"
                     = Some (CsvFile (write_csv (the_records self)))).
  { unfold zipped_tree. rewrite lookup_insert_ne by discriminate.
    change t3 with (fst (fst (t3, copied, @nil string))). rewrite <- Hcopy.
    rewrite copy_all_keeps.
    - unfold staged. rewrite lookup_insert_ne by discriminate.
      apply lookup_insert_eq.
    - intros r Hr. eapply records_not_top_level; [exact Hr | auto]. }
  rewrite Hzip, (read_back_written _ _ _ _ Hcsv Hresults).
  cbn [_validate_csv_paths_in_zip paths_valid].
  rewrite filter_none; [reflexivity|].
  intros p Hp Hnot. apply Hnot.
  apply csv_paths_written in Hp as (r & Hr & ->).
  apply elem_of_dom. unfold zipped_tree.
  rewrite lookup_insert. case_decide; [eauto|].
  change t3 with (fst (fst (t3, copied, @nil string))).
  rewrite <- Hcopy. apply copy_all_complete; [|exact Hr].
  now rewrite Hcopy.
Qed.

Lemma scanned_directory_bundled_witness :
  exists b s',
    create_report_bundle None
      (sample_env Malformed (Some sample_served) no_faults) fresh
    = (Returns (Success b), s') /\
    Bundle.total_images b = 3%nat /\
    Bundle.missing_files b = [] /\
    paths_valid (Bundle.path_validation b) = true.
Proof.
  assert (Hnd : NoDup (map fst sample_served)).
  { apply NoDup_ListNoDup. repeat constructor; cbn; intuition discriminate. }
  assert (Hok : no_step_raises
                  (sample_env Malformed (Some sample_served) no_faults)).
  { unfold no_step_raises. cbn. eauto 12. }
  destruct (scanned_directory_bundled
              (sample_env Malformed (Some sample_served) no_faults)
              None fresh sample_served I eq_refl Hnd Hok
              (fun _ => eq_refl) eq_refl eq_refl)
    as (b & s' & Hrun & Htotal & _ & Hmissing & Hvalid).
  exists b, s'. split; [exact Hrun|].
  split; [exact Htotal|]. split; [exact Hmissing | exact Hvalid].
Defined.

(** *** A gallery without images *)

Lemma validate_header_only :
  ImageRecord.validate_csv_schema (Returns [ImageRecord.get_required_columns])
  = ImageRecord.Checked true ImageRecord.get_required_columns
      ImageRecord.get_required_columns [] [] 0.
Proof.
  cbn [ImageRecord.validate_csv_schema csv.fieldnames].
  assert (Hsize : size (list_to_set ImageRecord.get_required_columns
                        ∖ list_to_set ImageRecord.get_required_columns
                        : gset string) = 0%nat)
    by (apply difference_empty_iff; auto).
  now rewrite (elements_empty_size _ Hsize), Hsize.
Qed.

(** X27. A gallery with no image is still bundled: when the data source
    gives no record and nothing raises, the call, from an empty staging
    directory, returns [status: success] with [total_images] 0; the archive
    has [results.csv], [config.json] and [README.md] and nothing else;
    [results.csv] is the header of the fifteen required columns alone, and
    both validations pass, with no row and no path counted. *)
Theorem empty_gallery_bundled (self : Env) (output_filename : option string)
    (rd : gmap string tree) :
  create_csv_records self (fetch_gallery_data self) = [] ->
  no_step_raises self ->
  faults self ReadCsv = None ->
  faults self ReadZip = None ->
  faults self ReadCsvPaths = None ->
  exists b s' z,
    create_report_bundle output_filename self (store None rd)
    = (Returns (Success b), s') /\
    Bundle.total_images b = 0%nat /\
    Bundle.copied_files b = 0%nat /\
    Bundle.missing_files b = [] /\
    Bundle.generation_types b = [] /\
    Bundle.csv_validation b
    = ImageRecord.Checked true ImageRecord.get_required_columns
        ImageRecord.get_required_columns [] [] 0 /\
    Bundle.path_validation b = PathsChecked true 0 0 [] true /\
    reports_dir s' !! Bundle.report_filename b = Some z /\
    z !! "results.csv" = Some (CsvFile [ImageRecord.get_required_columns]) /\
    (forall k, is_Some (z !! k) <->
               k ∈ ["results.csv"; "config.json"; "README.md"]).
Proof.
  intros Hempty Hok Hread Hzip Hpaths.
  destruct (success_run self output_filename (store None rd) Hok)
    as (b & s' & Hrun).
  destruct (success_inv _ _ _ _ _ Hrun)
    as (settings & t3 & copied & missing & _ & Hcopy & -> & ->).
  fold (the_records self) in Hempty.
  rewrite Hempty in Hcopy. cbn [copy_all temp_dir default] in Hcopy.
  injection Hcopy as <- <- <-.
  assert (Hcsv : zipped_tree self (staged self settings ∅) !! "results.csv"
                 = Some (CsvFile [ImageRecord.get_required_columns])).
  { unfold zipped_tree, staged. rewrite !lookup_insert_ne by discriminate.
    rewrite lookup_insert_eq, Hempty. reflexivity. }
  exists (the_bundle self (the_filename self output_filename) ∅
            (staged self settings ∅) [] []),
         (store None (<[the_filename self output_filename :=
                          zipped_tree self (staged self settings ∅)]> rd)),
         (zipped_tree self (staged self settings ∅)).
  split; [exact Hrun|].
  cbn [the_bundle Bundle.total_images Bundle.copied_files Bundle.missing_files
       Bundle.generation_types Bundle.csv_validation Bundle.path_validation
       Bundle.report_filename reports_dir temp_dir default length].
  split; [now rewrite Hempty|]. split; [reflexivity|]. split; [reflexivity|].
  split.
  { unfold the_generation_types. rewrite Hempty. cbn [map list_to_set].
    apply elements_empty. }
  split.
  { rewrite (read_back_written self ReadCsv _ [ImageRecord.get_required_columns]
               Hread).
    - apply validate_header_only.
    - rewrite lookup_insert_eq, Hempty. reflexivity. }
  split.
  { rewrite Hzip, (read_back_written _ _ _ _ Hpaths Hcsv). reflexivity. }
  split; [apply lookup_insert_eq|]. split; [exact Hcsv|].
  intros k. unfold zipped_tree, staged. rewrite list_elem_of_In. cbn [In].
  destruct (decide (k = "README.md")) as [-> | Hreadme].
  { rewrite lookup_insert_eq. split; [intros _; auto | eauto]. }
  rewrite lookup_insert_ne by congruence.
  destruct (decide (k = "config.json")) as [-> | Hconfig].
  { rewrite lookup_insert_eq. split; [intros _; auto | eauto]. }
  rewrite lookup_insert_ne by congruence.
  destruct (decide (k = "results.csv")) as [-> | Hresults].
  { rewrite lookup_insert_eq. split; [intros _; auto | eauto]. }
  rewrite lookup_insert_ne by congruence. rewrite lookup_empty. split.
  - intros [? Hk]. discriminate Hk.
  - intros [Hk | [Hk | [Hk | []]]]; congruence.
Qed.

Lemma empty_gallery_bundled_witness :
  exists b s',
    create_report_bundle None
      (sample_env (Object [("txt2img", [])]) None no_faults) fresh
    = (Returns (Success b), s') /\
    Bundle.total_images b = 0%nat /\
    Bundle.path_validation b = PathsChecked true 0 0 [] true.
Proof.
  assert (Hok : no_step_raises
                  (sample_env (Object [("txt2img", [])]) None no_faults)).
  { unfold no_step_raises. cbn. eauto 12. }
  destruct (empty_gallery_bundled
              (sample_env (Object [("txt2img", [])]) None no_faults)
              None ∅ eq_refl Hok eq_refl eq_refl eq_refl)
    as (b & s' & z & Hrun & Htotal & _ & _ & _ & _ & Hpaths & _).
  exists b, s'. split; [exact Hrun|]. split; [exact Htotal | exact Hpaths].
Defined.

End gallery_parts_facts.

(** ** More on the registry generator: CSV, selection, archive, route *)
Module registry_parts_facts.
Import Py run_registry report_bundle registry_facts registry_bundle_facts.

(** *** [generate_csv] and [validate_csv_schema] *)

(** The rows [generate_csv] writes for [runs]. *)
Definition generated_rows (self : Env) (runs : list RunConfig) : csv.file :=
  ReportBundleGenerator.required_columns ::
  map (fun run => csv.writerow ReportBundleGenerator.required_columns
                    (ReportBundleGenerator.csv_row self run)) runs.

Lemma filter_nil_none {A} (P : A -> Prop) `{forall x, Decision (P x)}
    (l : list A) :
  filter P l = [] <-> forall x, x ∈ l -> ~ P x.
Proof.
  split.
  - intros Hnil x Hx HP.
    assert (Hin : x ∈ filter P l) by now apply list_elem_of_filter.
    rewrite Hnil in Hin. now apply elem_of_nil in Hin.
  - intros Hnone. induction l as [|a l IH]; [reflexivity|].
    rewrite filter_cons_False by (apply Hnone; now left).
    apply IH. intros x Hx. apply Hnone. now right.
Qed.

Lemma check_schema_spec (opened : outcome csv.file) :
  ReportBundleGenerator.check_schema opened = true <->
  exists header rows,
    opened = Returns (header :: rows) /\
    forall c, c ∈ ReportBundleGenerator.required_columns -> c ∈ header.
Proof.
  destruct opened as [[|header rows]|e]; cbn [ReportBundleGenerator.check_schema].
  - split; [discriminate | intros (? & ? & H & _); discriminate H].
  - split.
    + intros Hcheck. exists header, rows. split; [reflexivity|].
      destruct (filter _ _) eqn:Hfilter; [|discriminate Hcheck].
      intros c Hc. pose proof (proj1 (filter_nil_none _ _) Hfilter c Hc) as Hn.
      cbn in Hn. destruct (decide (c ∈ header)); tauto.
    + intros (h & r & Heq & Hall). injection Heq as <- <-.
      rewrite (proj2 (filter_nil_none _ _)); [reflexivity|].
      intros c Hc Hnot. apply Hnot. now apply Hall.
  - split; [discriminate | intros (? & ? & H & _); discriminate H].
Qed.

(** X19. The registry generator's [validate_csv_schema] never raises and
    changes nothing; it answers [True] exactly when the file can be opened,
    is a CSV file with a header row, and the header has each of the nineteen
    required columns, in any order and among any others. *)
Theorem registry_schema_verdict (self : Env) (csv_path : string) (s : Store) :
  exists ok,
    ReportBundleGenerator.validate_csv_schema csv_path self s
    = (Returns ok, s) /\
    (ok = true <->
     faults self ReadCsv = None /\
     exists header rows,
       cwd s !! csv_path = Some (CsvFile (header :: rows)) /\
       forall c, c ∈ ReportBundleGenerator.required_columns -> c ∈ header).
Proof.
  eexists. split; [reflexivity|].
  rewrite check_schema_spec. split.
  - intros (header & rows & Hopen & Hall).
    destruct (faults self ReadCsv); [discriminate Hopen|].
    split; [reflexivity|]. exists header, rows. split; [|exact Hall].
    destruct (cwd s !! csv_path) as [[f| | |]|]; try discriminate Hopen.
    now injection Hopen as ->.
  - intros (-> & header & rows & -> & Hall). eauto.
Qed.

Lemma reg_write_temp_run (self : Env) (at_ : site) (name : string)
    (cnt : content) (s : Store) :
  write_temp at_ name cnt self s
  = match faults self at_ with
    | Some e => (Raises e, s)
    | None => (Returns tt, store (<[name := cnt]> (cwd s)) (bundle_dir s)
                                 (report_zip s))
    end.
Proof.
  unfold write_temp, set_cwd, Run.bind, Run.ask, Run.may_raise.
  now destruct (faults self at_).
Qed.

Lemma reg_generate_csv_run (self : Env) (runs : list RunConfig) (s : Store) :
  ReportBundleGenerator.generate_csv runs self s
  = match faults self WriteCsv with
    | Some e => (Raises e, s)
    | None =>
        (Returns "temp_results.csv",
         store (<["temp_results.csv" := CsvFile (generated_rows self runs)]>
                  (cwd s))
               (bundle_dir s) (report_zip s))
    end.
Proof.
  unfold ReportBundleGenerator.generate_csv.
  unfold Run.bind at 1. cbn [Run.ask].
  unfold Run.bind at 1. rewrite reg_write_temp_run.
  now destruct (faults self WriteCsv).
Qed.

Lemma check_generated (self : Env) (runs : list RunConfig) :
  ReportBundleGenerator.check_schema (Returns (generated_rows self runs))
  = true.
Proof.
  apply check_schema_spec. eexists _, _. split; [reflexivity|]. auto.
Qed.

(** A run as the reader returns it: each column with the cell written for
    it. *)
Definition read_run (self : Env) (run : RunConfig) : dict (option string) :=
  map (fun item => (fst item, Some (csv.cell (snd item))))
      (ReportBundleGenerator.csv_row self run).

Lemma generated_row_read_back (self : Env) (run : RunConfig) :
  csv.row_dict ReportBundleGenerator.required_columns
    (csv.writerow ReportBundleGenerator.required_columns
                  (ReportBundleGenerator.csv_row self run))
  = read_run self run.
Proof. reflexivity. Qed.

(** X20. When the temporary file can be written and read, what
    [generate_csv] writes passes [validate_csv_schema], whatever the runs:
    the header is the nineteen required columns, and a [DictReader] gives one
    row for each run, in order, with the run's values; [image_paths] is the
    [generated_images] joined with semicolons and [vae] is empty for a run
    without one. *)
Theorem generated_csv_round_trip (self : Env) (runs : list RunConfig)
    (s : Store) :
  faults self WriteCsv = None ->
  faults self ReadCsv = None ->
  exists s1 f,
    ReportBundleGenerator.generate_csv runs self s
    = (Returns "temp_results.csv", s1) /\
    ReportBundleGenerator.validate_csv_schema "temp_results.csv" self s1
    = (Returns true, s1) /\
    cwd s1 !! "temp_results.csv" = Some (CsvFile f) /\
    csv.fieldnames f = ReportBundleGenerator.required_columns /\
    csv.DictReader f = map (read_run self) runs /\
    forall run,
      csv.row_get (read_run self run) "run_id" "" = Some (run_id run) /\
      csv.row_get (read_run self run) "vae" "" = Some (default "" (vae run)) /\
      csv.row_get (read_run self run) "seed" "" = Some (pretty (seed run)) /\
      csv.row_get (read_run self run) "image_paths" ""
      = Some (String.concat ";" (generated_images run)).
Proof.
  intros Hwrite Hread. rewrite reg_generate_csv_run, Hwrite.
  eexists _, (generated_rows self runs). split; [reflexivity|].
  split.
  { unfold ReportBundleGenerator.validate_csv_schema, Run.bind, Run.ask,
      Run.get, Run.ret.
    rewrite Hread. cbn [cwd]. rewrite lookup_insert_eq.
    now rewrite check_generated. }
  split; [cbn [cwd]; apply lookup_insert_eq|].
  split; [reflexivity|].
  split.
  - unfold csv.DictReader, generated_rows. cbn [tail csv.fieldnames].
    rewrite (write_csv_facts.filter_bool (fun r => negb (csv.is_blank r))).
    rewrite write_csv_facts.filter_map_all by reflexivity.
    rewrite List.map_map. apply map_ext. intros run.
    apply generated_row_read_back.
  - intros run. split; [reflexivity|]. split; [reflexivity|].
    split; [reflexivity|].
    unfold read_run, csv.row_get. cbn.
    now destruct (generated_images run).
Qed.

Lemma generated_csv_round_trip_witness :
  exists s1 f,
    ReportBundleGenerator.generate_csv [sample_run]
      (sample_env [("run-1", sample_run)] ∅ no_faults) fresh
    = (Returns "temp_results.csv", s1) /\
    cwd s1 !! "temp_results.csv" = Some (CsvFile f) /\
    length (csv.DictReader f) = 1%nat.
Proof.
  destruct (generated_csv_round_trip
              (sample_env [("run-1", sample_run)] ∅ no_faults)
              [sample_run] fresh eq_refl eq_refl)
    as (s1 & f & Hgen & _ & Hfile & _ & Hrows & _).
  exists s1, f. split; [exact Hgen|]. split; [exact Hfile|].
  now rewrite Hrows.
Defined.

(** *** The runs a call bundles *)

Lemma selected_ids (self : Env) (run_ids : list string) (r : RunConfig) :
  r ∈ omap (fun run_id => get_run (registry self) run_id) run_ids <->
  exists i, i ∈ run_ids /\ get_run (registry self) i = Some r.
Proof. apply list_elem_of_omap. Qed.

Lemma omap_all_none {A B} (g : A -> option B) (l : list A) :
  (forall a, a ∈ l -> g a = None) -> omap g l = [].
Proof.
  induction l as [|a l IH]; intros Hnone; [reflexivity|].
  change (omap g (a :: l))
    with (match g a with Some y => y :: omap g l | None => omap g l end).
  rewrite (Hnone a) by now left.
  apply IH. intros a' Ha'. apply Hnone. now right.
Qed.

(** X21. Given a non-empty list of ids, the method bundles the runs the
    registry holds under those ids and passes over the ids it does not know;
    when it knows none of them it raises
    [ValueError: No runs found to include in report] and changes nothing,
    whatever other runs the registry holds. The empty list stands for all
    runs, in the method as in the route, where a request without [run_ids]
    is one with the empty list. *)
Theorem unknown_ids_are_skipped (self : Env) (id : string)
    (ids : list string) (s : Store) :
  (forall r, r ∈ selected self (Some (id :: ids)) <->
     exists i, i ∈ id :: ids /\ get_run (registry self) i = Some r) /\
  ((forall i, i ∈ id :: ids -> get_run (registry self) i = None) ->
   ReportBundleGenerator.create_report_bundle (Some (id :: ids)) self s
   = (Raises (ValueError "No runs found to include in report"), s)) /\
  selected self (Some []) = get_all_runs (registry self) /\
  ReportBundleGenerator.create_report_bundle (Some []) self s
  = ReportBundleGenerator.create_report_bundle None self s /\
  create_report_bundle None self s = create_report_bundle (Some []) self s.
Proof.
  split; [intros r; exact (selected_ids self (id :: ids) r)|].
  split; [|repeat split].
  intros Hnone. rewrite create_report_bundle_selected.
  unfold selected. now rewrite omap_all_none.
Qed.

(** *** The call, step by step *)

(** The loop of [copy_images_to_bundle] over the file names [names], from
    the bundle directory [t]. *)
Fixpoint copy_images (self : Env) (names : list string) (t : tree)
    (copied : list string) : outcome (list string) * tree :=
  match names with
  | [] => (Returns copied, t)
  | f :: names' =>
      if String.eqb f "" then copy_images self names' t copied
      else if bool_decide (f ∈ output_files self) then
        match faults self MakeImagesDir with
        | Some e => (Raises e, t)
        | None =>
            match faults self (Copy f) with
            | Some _ => copy_images self names' t copied
            | None =>
                copy_images self names'
                  (<["images/" +:+ f := ImageFile f]> t) (copied ++ [f])
            end
        end
      else copy_images self names' t copied
  end.

Lemma copy_images_app (self : Env) (l1 l2 : list string) (t : tree)
    (copied : list string) :
  copy_images self (l1 ++ l2) t copied
  = match copy_images self l1 t copied with
    | (Returns copied', t') => copy_images self l2 t' copied'
    | (Raises e, t') => (Raises e, t')
    end.
Proof.
  revert t copied. induction l1 as [|f l1 IH]; intros t copied;
    [reflexivity|].
  cbn [app copy_images].
  destruct (String.eqb f ""); [apply IH|].
  destruct (bool_decide (f ∈ output_files self)); [|apply IH].
  destruct (faults self MakeImagesDir); [reflexivity|].
  destruct (faults self (Copy f)); apply IH.
Qed.

Lemma copy_image_loop (self : Env) (names : list string) (c : tree) (t : tree)
    (z : option tree) (copied : list string) :
  Run.for_each names ReportBundleGenerator.copy_image copied self
    (store c (Some t) z)
  = let '(o, t') := copy_images self names t copied in
    (o, store c (Some t') z).
Proof.
  revert t copied. induction names as [|f names IH]; intros t copied;
    [reflexivity|].
  cbn [Run.for_each copy_images].
  unfold Run.bind at 1. unfold ReportBundleGenerator.copy_image at 1.
  unfold Run.bind at 1. cbn [Run.ask].
  destruct (String.eqb f ""); [apply IH|].
  destruct (bool_decide (f ∈ output_files self)); [|apply IH].
  unfold Run.bind at 1. rewrite bundle_makedirs_run.
  destruct (faults self MakeImagesDir); [reflexivity|].
  cbn [cwd bundle_dir report_zip default].
  unfold Run.try_except, Run.bind, Run.may_raise, store_in_bundle,
    set_bundle_dir, Run.get, Run.put, Run.ret, Run.raise.
  destruct (faults self (Copy f)); cbn; apply IH.
Qed.

Lemma copy_images_to_bundle_loop (self : Env) (runs : list RunConfig)
    (c : tree) (t : tree) (z : option tree) (copied : list string) :
  Run.for_each runs
    (fun run => Run.for_each (generated_images run)
                              ReportBundleGenerator.copy_image)
    copied self (store c (Some t) z)
  = let '(o, t') :=
      copy_images self (concat (map generated_images runs)) t copied in
    (o, store c (Some t') z).
Proof.
  revert t copied. induction runs as [|run runs IH]; intros t copied;
    [reflexivity|].
  cbn [Run.for_each map concat]. rewrite copy_images_app.
  unfold Run.bind at 1. rewrite copy_image_loop.
  destruct (copy_images self (generated_images run) t copied) as [[copied'|e] t'];
    [apply IH | reflexivity].
Qed.

Lemma reg_copy_temp_run (self : Env) (at_ : site) (temp_path dest : string)
    (c t : tree) (z : option tree) :
  copy_temp at_ temp_path dest self (store c (Some t) z)
  = match faults self at_ with
    | Some e => (Raises e, store c (Some t) z)
    | None =>
        match c !! temp_path with
        | Some cnt => (Returns tt, store c (Some (<[dest := cnt]> t)) z)
        | None => (Raises (OSError "No such file or directory"),
                   store c (Some t) z)
        end
    end.
Proof.
  unfold copy_temp, store_in_bundle, set_bundle_dir, Run.bind, Run.ask,
    Run.may_raise.
  destruct (faults self at_); [reflexivity|]. cbn.
  now destruct (c !! temp_path).
Qed.

Lemma reg_write_zip_run (self : Env) (c t : tree) (z : option tree) :
  ReportBundleGenerator.write_zip self (store c (Some t) z)
  = match faults self WriteZip with
    | Some e => (Raises e, store c (Some t) z)
    | None => (Returns tt, store c (Some t) (Some t))
    end.
Proof.
  unfold ReportBundleGenerator.write_zip, Run.bind, Run.ask, Run.may_raise.
  now destruct (faults self WriteZip).
Qed.

Lemma reg_remove_temp_run (self : Env) (temp_file : string) (cnt : content)
    (c : tree) (b z : option tree) :
  c !! temp_file = Some cnt ->
  ReportBundleGenerator.remove_temp temp_file tt self (store c b z)
  = match faults self RemoveTemp with
    | Some e => (Raises e, store c b z)
    | None => (Returns tt, store (delete temp_file c) b z)
    end.
Proof.
  intros Hthere.
  unfold ReportBundleGenerator.remove_temp, set_cwd, Run.bind, Run.ask,
    Run.get, Run.may_raise.
  cbn [cwd]. rewrite Hthere. now destruct (faults self RemoveTemp).
Qed.

(** The files [create_config_json] and [create_readme] write. *)
Definition the_config (self : Env) (runs : list RunConfig) : content :=
  ConfigJson
    {| generated_at := now_iso self;
       total_runs := length runs;
       config_generation_types :=
         elements (list_to_set (map generation_type runs) : gset string);
       models_used := elements (list_to_set (map model runs) : gset string);
       config_runs := runs |}.

Definition the_readme (self : Env) (runs : list RunConfig)
    (copied_images : list string) : content :=
  ReadmeMd (now_text self) (length runs)
    (elements (list_to_set (map generation_type runs) : gset string))
    (elements (list_to_set (map model runs) : gset string))
    (length copied_images).

(** The working directory with the three temporary files. *)
Definition with_temps (self : Env) (runs : list RunConfig)
    (copied_images : list string) (c : tree) : tree :=
  <["temp_README.md" := the_readme self runs copied_images]>
    (<["temp_config.json" := the_config self runs]>
       (<["temp_results.csv" := CsvFile (generated_rows self runs)]> c)).

Definition without_temps (c : tree) : tree :=
  delete "temp_README.md"
    (delete "temp_config.json" (delete "temp_results.csv" c)).

(** What the body of the [try] does from the working directory [c] and the
    bundle directory [t], one case for each place it can stop at. *)
Definition reg_try_outcome (self : Env) (runs : list RunConfig) (c t : tree)
    (z : option tree) : outcome string * Store :=
  match faults self WriteCsv with
  | Some e => (Raises e, store c (Some t) z)
  | None =>
  let c1 := <["temp_results.csv" := CsvFile (generated_rows self runs)]> c in
  match faults self ReadCsv with
  | Some _ => (Raises (ValueError "CSV schema validation failed"),
               store c1 (Some t) z)
  | None =>
  match faults self CopyCsv with
  | Some e => (Raises e, store c1 (Some t) z)
  | None =>
  let t1 := <["results.csv" := CsvFile (generated_rows self runs)]> t in
  match faults self WriteConfig with
  | Some e => (Raises e, store c1 (Some t1) z)
  | None =>
  let c2 := <["temp_config.json" := the_config self runs]> c1 in
  match faults self CopyConfig with
  | Some e => (Raises e, store c2 (Some t1) z)
  | None =>
  let t2 := <["config.json" := the_config self runs]> t1 in
  match copy_images self (concat (map generated_images runs)) t2 [] with
  | (Raises e, t3) => (Raises e, store c2 (Some t3) z)
  | (Returns copied_images, t3) =>
  match faults self WriteReadme with
  | Some e => (Raises e, store c2 (Some t3) z)
  | None =>
  let c3 := with_temps self runs copied_images c in
  match faults self CopyReadme with
  | Some e => (Raises e, store c3 (Some t3) z)
  | None =>
  let t4 := <["README.md" := the_readme self runs copied_images]> t3 in
  match faults self WriteZip with
  | Some e => (Raises e, store c3 (Some t4) z)
  | None =>
  match faults self RemoveTemp with
  | Some e => (Raises e, store c3 (Some t4) (Some t4))
  | None =>
  match faults self Cleanup with
  | Some e => (Raises e, store (without_temps c3) (Some t4) (Some t4))
  | None =>
      (Returns "report.zip", store (without_temps c3) None (Some t4))
  end end end end end end end end end end end.

Lemma reg_try_run (self : Env) (runs : list RunConfig) (c t : tree)
    (z : option tree) :
  ReportBundleGenerator.create_report_bundle_try runs self (store c (Some t) z)
  = reg_try_outcome self runs c t z.
Proof.
  unfold ReportBundleGenerator.create_report_bundle_try, reg_try_outcome.
  unfold Run.bind at 1. rewrite reg_generate_csv_run.
  destruct (faults self WriteCsv) as [e|]; [reflexivity|].
  cbn [cwd bundle_dir report_zip].
  unfold Run.bind at 1.
  unfold ReportBundleGenerator.validate_csv_schema at 1.
  unfold Run.bind at 1. cbn [Run.ask].
  unfold Run.bind at 1. cbn [Run.get Run.ret cwd].
  destruct (faults self ReadCsv) as [e|]; [reflexivity|].
  rewrite lookup_insert_eq, check_generated. cbn [negb].
  unfold Run.bind at 1. rewrite reg_copy_temp_run.
  destruct (faults self CopyCsv) as [e|]; [reflexivity|].
  rewrite lookup_insert_eq.
  unfold Run.bind at 1. unfold ReportBundleGenerator.create_config_json at 1.
  unfold Run.bind at 1. cbn [Run.ask].
  unfold Run.bind at 1. rewrite reg_write_temp_run.
  fold (the_config self runs).
  destruct (faults self WriteConfig) as [e|]; [reflexivity|].
  cbn [cwd bundle_dir report_zip Run.ret].
  unfold Run.bind at 1. rewrite reg_copy_temp_run.
  destruct (faults self CopyConfig) as [e|]; [reflexivity|].
  rewrite lookup_insert_eq.
  unfold Run.bind at 1.
  unfold ReportBundleGenerator.copy_images_to_bundle at 1.
  rewrite copy_images_to_bundle_loop.
  destruct (copy_images self _ _ []) as [[copied_images|e] t3];
    [|reflexivity].
  unfold Run.bind at 1. unfold ReportBundleGenerator.create_readme at 1.
  unfold Run.bind at 1. cbn [Run.ask].
  unfold Run.bind at 1. rewrite reg_write_temp_run.
  fold (the_readme self runs copied_images).
  destruct (faults self WriteReadme) as [e|]; [reflexivity|].
  cbn [cwd bundle_dir report_zip Run.ret].
  fold (with_temps self runs copied_images c).
  unfold Run.bind at 1. rewrite reg_copy_temp_run.
  destruct (faults self CopyReadme) as [e|]; [reflexivity|].
  unfold with_temps at 1. rewrite lookup_insert_eq.
  unfold Run.bind at 1. rewrite reg_write_zip_run.
  destruct (faults self WriteZip) as [e|]; [reflexivity|].
  unfold Run.bind at 1. cbn [Run.for_each].
  unfold Run.bind at 1.
  rewrite (reg_remove_temp_run self "temp_results.csv"
             (CsvFile (generated_rows self runs)))
    by (unfold with_temps; now rewrite !lookup_insert_ne by discriminate;
        rewrite lookup_insert_eq).
  destruct (faults self RemoveTemp) as [e|] eqn:Hremove; [reflexivity|].
  unfold Run.bind at 1.
  rewrite (reg_remove_temp_run self "temp_config.json" (the_config self runs))
    by (unfold with_temps; rewrite lookup_delete_ne by discriminate;
        rewrite lookup_insert_ne by discriminate;
        now rewrite lookup_insert_eq).
  rewrite Hremove. unfold Run.bind at 1.
  rewrite (reg_remove_temp_run self "temp_README.md"
             (the_readme self runs copied_images))
    by (unfold with_temps; rewrite !lookup_delete_ne by discriminate;
        now rewrite lookup_insert_eq).
  rewrite Hremove. cbn [Run.ret]. fold (without_temps (with_temps self runs copied_images c)).
  unfold Run.bind at 1. rewrite rmtree_run.
  destruct (faults self Cleanup) as [e|]; reflexivity.
Qed.

(** The method: the selection, the bundle directory, the [try] and its
    [except]. *)
Lemma reg_method_run (self : Env) (run_ids : option (list string))
    (s : Store) :
  ReportBundleGenerator.create_report_bundle run_ids self s
  = match selected self run_ids with
    | [] => (Raises (ValueError "No runs found to include in report"), s)
    | _ :: _ =>
        match faults self MakeBundleDir with
        | Some e => (Raises e, s)
        | None =>
            let '(o, s1) :=
              reg_try_outcome self (selected self run_ids) (cwd s)
                (default ∅ (bundle_dir s)) (report_zip s) in
            match o with
            | Returns zip_path => (Returns zip_path, s1)
            | Raises e =>
                match bundle_dir s1 with
                | Some _ =>
                    match faults self Cleanup with
                    | Some e' => (Raises e', s1)
                    | None => (Raises e, store (cwd s1) None (report_zip s1))
                    end
                | None => (Raises e, s1)
                end
            end
        end
    end.
Proof.
  rewrite create_report_bundle_selected. unfold bundle_selected.
  destruct (selected self run_ids) as [|r rs]; [reflexivity|].
  unfold Run.bind at 1. rewrite bundle_makedirs_run.
  destruct (faults self MakeBundleDir); [reflexivity|].
  unfold Run.try_except. rewrite reg_try_run.
  destruct (reg_try_outcome _ _ _ _ _) as [[zip_path|e] s1]; [reflexivity|].
  unfold cleanup_and_reraise, Run.bind, Run.get.
  destruct (bundle_dir s1); [|reflexivity].
  rewrite rmtree_run. now destruct (faults self Cleanup).
Qed.

(** *** The images a call copies *)

(** An image the loop copies: a non-empty name of a file of the output
    directory whose copy does not fail. *)
Definition copied (self : Env) (f : string) : bool :=
  negb (String.eqb f "") && bool_decide (f ∈ output_files self)
  && match faults self (Copy f) with None => true | Some _ => false end.








(** *** A call that succeeds *)








(** *** A call that fails *)








(** *** The routes *)

Lemma method_returns (self : Env) (run_ids : option (list string))
    (s s' : Store) (zip_path : string) :
  ReportBundleGenerator.create_report_bundle run_ids self s
  = (Returns zip_path, s') ->
  zip_path = "report.zip" /\ is_Some (report_zip s') /\ bundle_dir s' = None.
Proof.
  rewrite reg_method_run.
  destruct (selected self run_ids) as [|r rs] eqn:Hsel; [discriminate|].
  rewrite <- Hsel. clear Hsel r rs.
  destruct (faults self MakeBundleDir); [discriminate|].
  unfold reg_try_outcome.
  repeat match goal with
         | |- context [match faults self ?x with _ => _ end] =>
             destruct (faults self x)
         | |- context [copy_images ?a ?b ?c ?d] =>
             destruct (copy_images a b c d) as [[?|?] ?]
         end; cbn [bundle_dir]; try discriminate.
  intros H. injection H as <- <-. cbn. eauto.
Qed.



(** X23. The route [POST /api/report-bundle] always answers and never
    raises: with status 200, [status: success] and [file_path: report.zip],
    the archive being there and the bundle directory gone, when the method
    returns; with status 500, [status: error] and the exception's message
    when the method raises. *)
Theorem route_answers (self : Env) (run_ids : option (list string))
    (s : Store) :
  exists resp s',
    create_report_bundle run_ids self s = (Returns resp, s') /\
    ((resp = {| status := "success";
                message := "Report bundle created successfully";
                file_path := Some "report.zip"; http_status := 200 |} /\
      ReportBundleGenerator.create_report_bundle
        (Some (default [] run_ids)) self s = (Returns "report.zip", s') /\
      is_Some (report_zip s') /\ bundle_dir s' = None) \/
     (exists e,
        resp = {| status := "error"; message := str_exn e;
                  file_path := None; http_status := 500 |} /\
        ReportBundleGenerator.create_report_bundle
          (Some (default [] run_ids)) self s = (Raises e, s'))).
Proof.
  rewrite route_run.
  destruct (ReportBundleGenerator.create_report_bundle _ self s)
    as [[zip_path|e] s'] eqn:Hrun.
  - destruct (method_returns _ _ _ _ _ Hrun) as (-> & Hzip & Hdir).
    eexists _, _. split; [reflexivity|]. left. auto.
  - eexists _, _. split; [reflexivity|]. right. eauto.
Qed.



End registry_parts_facts.

(** ** The routes of the run registry *)

(** [GET /api/runs], [GET /api/runs/<run_id>] and
    [DELETE /api/runs/<run_id>] of [run_registry.py], on the registry and
    the disk they work on. (Nothing these routes call raises here, so the
    answer of their [except] clause, status 500, is not among the cases.) *)
Module run_registry_routes.
Import Py run_registry.

(** A JSON answer with its HTTP status; [run] and [listed] are the [run]
    and [runs] entries, each run standing for its [asdict]. *)
Record answer : Type := {
  status : string;
  message : option string;
  run : option RunConfig;
  listed : option (list RunConfig);
  http_status : Z
}.

Definition get_runs (registry : RunRegistry) : answer :=
  let runs := get_all_runs registry in
  {| status := "success"; message := None; run := None;
     listed := Some runs; http_status := 200 |}.

Definition get_run (registry : RunRegistry) (run_id : string) : answer :=
  match run_registry.get_run registry run_id with
  | Some run =>
      {| status := "success"; message := None; run := Some run;
         listed := None; http_status := 200 |}
  | None =>
      {| status := "error"; message := Some "Run not found"; run := None;
         listed := None; http_status := 404 |}
  end.

Definition delete_run (registry : RunRegistry) (run_id : string) (fs : Disk)
  : answer * RunRegistry * Disk :=
  let '(success, registry', fs') :=
    run_registry.delete_run registry run_id fs in
  (if success
   then {| status := "success"; message := Some "Run deleted successfully";
           run := None; listed := None; http_status := 200 |}
   else {| status := "error"; message := Some "Run not found";
           run := None; listed := None; http_status := 404 |},
   registry', fs').

End run_registry_routes.

Module registry_routes_facts.
Import Py run_registry.
Import registry_store_facts.

Module R := run_registry_routes.

Lemma dict_get_elem {V} (d : dict V) (k : string) (v : V) :
  dict_get d k = Some v -> (k, v) ∈ d.
Proof.
  induction d as [|[k' v'] d IH]; cbn; [discriminate|].
  destruct (String.eqb k k') eqn:E.
  - apply String.eqb_eq in E. subst k'. intros H. injection H as ->. now left.
  - intros H. right. now apply IH.
Qed.

Lemma dict_values_get {V} (d : dict V) (v : V) :
  NoDup (keys d) ->
  v ∈ dict_values d <-> exists k, dict_get d k = Some v.
Proof.
  intros Hnd. unfold dict_values. rewrite list_elem_of_fmap. split.
  - intros ([k v'] & -> & Hin). exists k. cbn.
    now apply gallery_parts_facts.dict_get_NoDup.
  - intros (k & Hget). exists (k, v). split; [reflexivity|].
    now apply dict_get_elem.
Qed.

(** X28. Deleting through the route answers 200 exactly when a [GET] of the
    id answered 200, and 404 [Run not found] otherwise, in which case the
    registry and the disk are untouched; after it a [GET] of the id answers
    404, and a [GET] of any other id answers what it answered before. *)
Theorem delete_then_get (registry : RunRegistry) (run_id : string)
    (fs : Disk) :
  NoDup (keys (runs registry)) ->
  let '(a, registry', fs') := R.delete_run registry run_id fs in
  (R.http_status a = 200 <->
   R.http_status (R.get_run registry run_id) = 200) /\
  (R.http_status a <> 200 ->
   R.http_status a = 404 /\ R.message a = Some "Run not found" /\
   registry' = registry /\ fs' = fs) /\
  R.get_run registry' run_id
  = {| R.status := "error"; R.message := Some "Run not found";
       R.run := None; R.listed := None; R.http_status := 404 |} /\
  (forall other, other <> run_id ->
     R.get_run registry' other = R.get_run registry other).
Proof.
  intros Hnd. unfold R.delete_run, R.get_run, delete_run, get_run, dict_in.
  destruct (dict_get (runs registry) run_id) as [config|] eqn:Hget.
  - cbn [R.http_status runs]. split; [tauto|]. split; [intros H; done|].
    rewrite dict_get_del_eq by exact Hnd. split; [reflexivity|].
    intros other Hne. rewrite dict_get_del_ne by congruence. reflexivity.
  - cbn [R.http_status R.message]. split; [split; discriminate|].
    split; [auto|]. rewrite Hget. split; [reflexivity|]. reflexivity.
Qed.

Lemma delete_then_get_witness :
  let '(a, registry', _) :=
    R.delete_run registry_facts.sample_registry "run-1"
      registry_facts.sample_disk in
  R.http_status a = 200 /\ R.http_status (R.get_run registry' "run-1") = 404.
Proof.
  assert (Hnd : NoDup (keys (runs registry_facts.sample_registry))).
  { repeat constructor. apply not_elem_of_nil. }
  pose proof (delete_then_get registry_facts.sample_registry "run-1"
                registry_facts.sample_disk Hnd) as H.
  destruct (R.delete_run registry_facts.sample_registry "run-1"
              registry_facts.sample_disk) as [[a registry'] fs'] eqn:E.
  destruct H as (Hiff & _ & Hgone & _).
  split; [apply Hiff; reflexivity | now rewrite Hgone].
Defined.

(** X29. The listing and the lookup agree: [GET /api/runs] always answers
    200, and the runs it lists are exactly those some id is answered with by
    [GET /api/runs/<run_id>], each entry of the registry listed once. *)
Theorem listing_agrees_with_lookup (registry : RunRegistry) :
  NoDup (keys (runs registry)) ->
  exists runs_listed,
    R.get_runs registry
    = {| R.status := "success"; R.message := None; R.run := None;
         R.listed := Some runs_listed; R.http_status := 200 |} /\
    length runs_listed = length (runs registry) /\
    forall config,
      config ∈ runs_listed <->
      exists run_id, R.run (R.get_run registry run_id) = Some config.
Proof.
  intros Hnd. exists (get_all_runs registry). split; [reflexivity|].
  unfold get_all_runs. split.
  - rewrite (Permutation_length (sorted_desc_perm timestamp _)).
    unfold dict_values. apply length_map.
  - intros config. rewrite (sorted_desc_perm timestamp _).
    rewrite (dict_values_get _ _ Hnd). unfold R.get_run, get_run.
    split; intros [run_id Hget]; exists run_id.
    + now rewrite Hget.
    + destruct (dict_get (runs registry) run_id); [exact Hget|].
      discriminate Hget.
Qed.

Lemma listing_agrees_with_lookup_witness :
  exists runs_listed,
    R.listed (R.get_runs registry_facts.sample_registry) = Some runs_listed /\
    length runs_listed = 1%nat.
Proof.
  assert (Hnd : NoDup (keys (runs registry_facts.sample_registry))).
  { repeat constructor. apply not_elem_of_nil. }
  destruct (listing_agrees_with_lookup registry_facts.sample_registry Hnd)
    as (runs_listed & Heq & Hlen & _).
  exists runs_listed. split; [now rewrite Heq | exact Hlen].
Defined.

End registry_routes_facts.
